(** * PolarisAPI: the request-signing pipeline of [polaris.py]

    A shallow embedding of the [PAPI] client class of [src/polaris.py]
    (Python 2): the constructor, the signer [_getPAPIHash], the query
    encoder [_dictParse], the core routine [_undifferentiatied] and the
    catalogue methods that the verified properties mention.

    Python byte strings are [string]s (one [ascii] per byte), Python
    dictionaries handed around as keyword arguments and headers are
    [gmap string _], dictionaries that the code iterates over or
    serializes are association lists in iteration order (a dictionary
    display is taken in the order of its text; CPython 2 iterates in an
    order fixed by the hashes of the keys, and no property below depends
    on which).  A call is modelled with its positional and keyword
    arguments, so that a call with the wrong arguments raises the
    [TypeError] that Python raises.  The standard-library functions the
    module calls ([hmac], [hashlib.sha1], the [base64] codec,
    [email.utils.formatdate], [str.format]) are written out;
    [json.dumps], the preparation of a request by [requests] and the
    transport are the fields of the class [Collaborators]. *)

From Stdlib Require Import ZArith Lia Ascii String DecimalString.
From stdpp Require Import gmap strings list.

Local Open Scope Z_scope.
Set Warnings "-register-all".

(** ** Bytes *)

Definition byte_of_ascii (c : ascii) : Z := Z.of_N (Ascii.N_of_ascii c).
Definition ascii_of_byte (b : Z) : ascii := Ascii.ascii_of_N (Z.to_N (b mod 256)).

Definition bytes_of_string (s : string) : list Z :=
  byte_of_ascii <$> String.list_ascii_of_string s.

(** ** [hashlib.sha1] (FIPS 180-4) *)

Module SHA1.

Definition w32 (x : Z) : Z := Z.land x 4294967295.
Definition add32 (x y : Z) : Z := w32 (x + y).
Definition rotl (n x : Z) : Z :=
  w32 (Z.lor (Z.shiftl x n) (Z.shiftr x (32 - n))).
Definition not32 (x : Z) : Z := Z.lxor x 4294967295.

(** The [n] low bytes of [x], most significant first. *)
Definition be_bytes (n : nat) (x : Z) : list Z :=
  (fun i => Z.land (Z.shiftr x (8 * Z.of_nat i)) 255) <$> rev (seq 0 n).

(** The message followed by the bit 1, zero bytes up to 56 modulo 64
    and the bit length on eight bytes. *)
Definition pad (msg : list Z) : list Z :=
  let len := Z.of_nat (length msg) in
  msg ++ [128] ++ replicate (Z.to_nat ((55 - len) mod 64)) 0
      ++ be_bytes 8 (8 * len).

Fixpoint words (l : list Z) : list Z :=
  match l with
  | a :: b :: c :: d :: l' =>
      Z.lor (Z.shiftl a 24) (Z.lor (Z.shiftl b 16) (Z.lor (Z.shiftl c 8) d))
      :: words l'
  | _ => []
  end.

(** The message schedule, newest word first. *)
Fixpoint schedule (n : nat) (ws : list Z) : list Z :=
  match n with
  | O => ws
  | S n' =>
      let w := rotl 1 (Z.lxor (Z.lxor (nth 2 ws 0) (nth 7 ws 0))
                              (Z.lxor (nth 13 ws 0) (nth 15 ws 0))) in
      schedule n' (w :: ws)
  end.

Definition state : Type := Z * Z * Z * Z * Z.

Definition round (st : state) (tw : nat * Z) : state :=
  let '(a, b, c, d, e) := st in
  let '(t, w) := tw in
  let '(f, k) :=
    if (t <? 20)%nat then
      (Z.lor (Z.land b c) (Z.land (not32 b) d), 1518500249)
    else if (t <? 40)%nat then
      (Z.lxor (Z.lxor b c) d, 1859775393)
    else if (t <? 60)%nat then
      (Z.lor (Z.lor (Z.land b c) (Z.land b d)) (Z.land c d), 2400959708)
    else
      (Z.lxor (Z.lxor b c) d, 3395469782) in
  (add32 (add32 (add32 (add32 (rotl 5 a) f) e) k) w, a, rotl 30 b, c, d).

Definition compress (st : state) (block : list Z) : state :=
  let ws := rev (schedule 64 (rev (words block))) in
  let '(a, b, c, d, e) := foldl round st (zip (seq 0 80) ws) in
  let '(h0, h1, h2, h3, h4) := st in
  (add32 h0 a, add32 h1 b, add32 h2 c, add32 h3 d, add32 h4 e).

Fixpoint blocks (n : nat) (st : state) (l : list Z) : state :=
  match n with
  | O => st
  | S n' => blocks n' (compress st (take 64 l)) (drop 64 l)
  end.

Definition init : state :=
  (1732584193, 4023233417, 2562383102, 271733878, 3285377520).

Definition digest (msg : list Z) : list Z :=
  let p := pad msg in
  let '(a, b, c, d, e) := blocks (length p / 64) init p in
  be_bytes 4 a ++ be_bytes 4 b ++ be_bytes 4 c ++ be_bytes 4 d ++ be_bytes 4 e.

End SHA1.

(** ** [hmac.new(key, msg, sha1).digest()] *)

Module HMAC.

Definition blocksize : nat := 64.

Definition digest (key msg : list Z) : list Z :=
  let key := if (blocksize <? length key)%nat then SHA1.digest key else key in
  let key := key ++ replicate (blocksize - length key) 0 in
  let inner := SHA1.digest ((Z.lxor 54 <$> key) ++ msg) in
  SHA1.digest ((Z.lxor 92 <$> key) ++ inner).

End HMAC.

(** ** The [base64] codec of Python 2

    [s.encode('base64')] is [base64.encodestring(s)]: every piece of at
    most 57 bytes is encoded by [binascii.b2a_base64], which ends its
    output with a line feed. *)

Module Base64.

Definition alphabet : list ascii :=
  String.list_ascii_of_string
    "ABCDEFGHIJKLMNOPQRSTUVWXYZabcdefghijklmnopqrstuvwxyz0123456789+/".

Definition sextet (n : Z) : ascii := nth (Z.to_nat n) alphabet "="%char.

(** RFC 4648 base64 with padding. *)
Fixpoint encode (l : list Z) : list ascii :=
  match l with
  | [] => []
  | [a] =>
      [sextet (a / 4); sextet (a mod 4 * 16); "="%char; "="%char]
  | [a; b] =>
      [sextet (a / 4); sextet (a mod 4 * 16 + b / 16);
       sextet (b mod 16 * 4); "="%char]
  | a :: b :: c :: l' =>
      sextet (a / 4) :: sextet (a mod 4 * 16 + b / 16)
        :: sextet (b mod 16 * 4 + c / 64) :: sextet (c mod 64)
        :: encode l'
  end.

Definition MAXBINSIZE : nat := 57.

Definition b2a_base64 (chunk : list Z) : list ascii :=
  encode chunk ++ ["010"%char].

(** [for i in range(0, len(s), MAXBINSIZE)]: [n] bounds the number of
    pieces. *)
Fixpoint pieces (n : nat) (s : list Z) : list ascii :=
  match n, s with
  | _, [] => []
  | O, _ => []
  | S n', _ => b2a_base64 (take MAXBINSIZE s) ++ pieces n' (drop MAXBINSIZE s)
  end.

Definition encodestring (s : list Z) : list ascii := pieces (length s) s.

End Base64.

(** [s[:-1]] *)
Definition drop_last {A : Type} (l : list A) : list A :=
  take (length l - 1) l.

(** ** Python values *)

(** The values the client and its callers exchange: [None], booleans,
    integers, byte strings, dictionaries keyed by byte strings (in
    iteration order) and other objects, of which only the text of their
    [repr] matters here. *)
Inductive pyval : Type :=
  | PyNone
  | PyBool (b : bool)
  | PyInt (z : Z)
  | PyStr (s : string)
  | PyDict (d : list (string * pyval))
  | PyObj (repr : string).

(** Truth value, as tested by [if x] and [x and y]. *)
Definition truthy (v : pyval) : bool :=
  match v with
  | PyNone => false
  | PyBool b => b
  | PyInt z => negb (z =? 0)
  | PyStr s => negb (String.eqb s "")
  | PyDict d => match d with [] => false | _ => true end
  | PyObj _ => true
  end.

(** Decimal text of an integer. *)
Definition dec (z : Z) : string :=
  DecimalString.NilZero.string_of_int (Z.to_int z).

(** Hexadecimal text, in lower case. *)
Definition hex_digit (d : Z) : ascii :=
  ascii_of_byte (if d <? 10 then 48 + d else 87 + d).

Definition hex (l : list Z) : string :=
  String.string_of_list_ascii
    (mjoin ((fun b => [hex_digit (b / 16); hex_digit (b mod 16)]) <$> l)).

(** [c in s] *)
Definition has_char (c : ascii) (s : string) : bool :=
  existsb (Ascii.eqb c) (String.list_ascii_of_string s).

(** [repr] of a byte string: in single quotes, unless it has a single
    quote and no double quote. *)
Definition repr_char (quote c : ascii) : list ascii :=
  let n := byte_of_ascii c in
  if Ascii.eqb c quote || Ascii.eqb c "\"%char then ["\"%char; c]
  else if n =? 9 then ["\"%char; "t"%char]
  else if n =? 10 then ["\"%char; "n"%char]
  else if n =? 13 then ["\"%char; "r"%char]
  else if (n <? 32) || (127 <=? n) then
    ["\"%char; "x"%char; hex_digit (n / 16); hex_digit (n mod 16)]
  else [c].

Definition repr_str (s : string) : string :=
  let quote :=
    if has_char "'"%char s && negb (has_char "034"%char s)
    then "034"%char else "'"%char in
  String.string_of_list_ascii
    (quote :: mjoin (repr_char quote <$> String.list_ascii_of_string s)
       ++ [quote]).

Fixpoint join (sep : string) (l : list string) : string :=
  match l with
  | [] => ""
  | [x] => x
  | x :: l' => x +:+ sep +:+ join sep l'
  end.

(** [repr(v)]; an integer outside the machine range is a [long]. *)
Fixpoint py_repr (v : pyval) : string :=
  match v with
  | PyNone => "None"
  | PyBool b => if b then "True" else "False"
  | PyInt z =>
      if (-9223372036854775808 <=? z) && (z <=? 9223372036854775807)
      then dec z else dec z +:+ "L"
  | PyStr s => repr_str s
  | PyDict d =>
      "{" +:+ join ", " ((fun kv => repr_str kv.1 +:+ ": " +:+ py_repr kv.2) <$> d)
          +:+ "}"
  | PyObj r => r
  end.

(** [s.upper()] on ASCII text. *)
Definition str_upper (s : string) : string :=
  String.string_of_list_ascii
    ((fun c => let n := byte_of_ascii c in
               if (97 <=? n) && (n <=? 122) then ascii_of_byte (n - 32) else c)
     <$> String.list_ascii_of_string s).

(** [str(v)], which is also what [str.format] puts in place of a
    replacement field without a format specification. *)
Definition py_str (v : pyval) : string :=
  match v with
  | PyStr s => s
  | PyInt z => dec z
  | _ => py_repr v
  end.

(** ** [email.utils.formatdate] *)

Module EmailUtils.

Record struct_time : Type := {
  tm_year : Z; tm_mon : Z; tm_mday : Z;
  tm_hour : Z; tm_min : Z; tm_sec : Z; tm_wday : Z }.

(** The year, month and day of a number of days since 1970-01-01, in
    the proleptic Gregorian calendar (counted in eras of 400 years
    from a first of March). *)
Definition civil (days : Z) : Z * Z * Z :=
  let z := days + 719468 in
  let era := z / 146097 in
  let doe := z - era * 146097 in
  let yoe := (doe - doe / 1460 + doe / 36524 - doe / 146096) / 365 in
  let doy := doe - (365 * yoe + yoe / 4 - yoe / 100) in
  let mp := (5 * doy + 2) / 153 in
  let m := if mp <? 10 then mp + 3 else mp - 9 in
  (yoe + era * 400 + (if m <=? 2 then 1 else 0),
   m,
   doy - (153 * mp + 2) / 5 + 1).

(** [time.gmtime]; Monday is day 0 of the week. *)
Definition gmtime (t : Z) : struct_time :=
  let days := t / 86400 in
  let secs := t mod 86400 in
  let '(year, mon, mday) := civil days in
  {| tm_year := year;
     tm_mon := mon;
     tm_mday := mday;
     tm_hour := secs / 3600;
     tm_min := secs mod 3600 / 60;
     tm_sec := secs mod 60;
     tm_wday := (days + 3) mod 7 |}.

(** ['%0wd' % n] *)
Definition zero_padded (w : nat) (n : Z) : string :=
  let digits := dec (Z.abs n) in
  let sign := if n <? 0 then "-" else "" in
  let fill := (w - String.length sign - String.length digits)%nat in
  sign +:+ String.string_of_list_ascii (replicate fill "0"%char) +:+ digits.

Definition day_names : list string :=
  ["Mon"; "Tue"; "Wed"; "Thu"; "Fri"; "Sat"; "Sun"].
Definition month_names : list string :=
  ["Jan"; "Feb"; "Mar"; "Apr"; "May"; "Jun";
   "Jul"; "Aug"; "Sep"; "Oct"; "Nov"; "Dec"].

(** [formatdate(timeval, localtime=False, usegmt=True)] *)
Definition formatdate (timeval : Z) : string :=
  let now := gmtime timeval in
  let zone := "GMT" in
  nth (Z.to_nat (tm_wday now)) day_names "" +:+ ", "
    +:+ zero_padded 2 (tm_mday now) +:+ " "
    +:+ nth (Z.to_nat (tm_mon now - 1)) month_names "" +:+ " "
    +:+ zero_padded 4 (tm_year now) +:+ " "
    +:+ zero_padded 2 (tm_hour now) +:+ ":"
    +:+ zero_padded 2 (tm_min now) +:+ ":"
    +:+ zero_padded 2 (tm_sec now) +:+ " " +:+ zone.

End EmailUtils.

(** ** Exceptions, the world and the monad of client code *)

Inductive exn : Type :=
  | TypeError
  | AttributeError
  | KeyError
  | LibraryError (name : string).

Inductive result (A : Type) : Type :=
  | Ok (a : A)
  | Raise (e : exn).
Arguments Ok {A} a.
Arguments Raise {A} e.

#[global] Instance result_ret : MRet result := fun _ a => Ok a.
#[global] Instance result_bind : MBind result := fun _ _ f r =>
  match r with
  | Ok a => f a
  | Raise e => Raise e
  end.

(** A request as [requests] prepares it. *)
Record PreparedRequest : Type := {
  p_method : string;
  p_url : string;
  p_headers : gmap string pyval;
  p_body : string }.

Definition with_headers (r : PreparedRequest) (h : gmap string pyval)
  : PreparedRequest :=
  {| p_method := p_method r; p_url := p_url r;
     p_headers := h; p_body := p_body r |}.

Record Response : Type := { status_code : Z; content : string }.

(** What the client can observe and change: the clock ([time_src n] is
    the [n]-th reading of [time.time()], in whole seconds, and [ticks]
    counts the readings made), the texts printed on standard output
    (each is followed by a line feed there) and the requests handed to
    the session, oldest first. *)
Record world : Type := {
  time_src : nat -> Z;
  ticks : nat;
  stdout : list string;
  wire : list PreparedRequest }.

Definition M (A : Type) : Type := world -> result A * world.

#[global] Instance M_ret : MRet M := fun _ a w => (Ok a, w).
#[global] Instance M_bind : MBind M := fun _ _ f m w =>
  match m w with
  | (Ok a, w') => f a w'
  | (Raise e, w') => (Raise e, w')
  end.

Definition raise {A : Type} (e : exn) : M A := fun w => (Raise e, w).

Definition lift {A : Type} (r : result A) : M A := fun w => (r, w).

(** [print x] *)
Definition print (x : string) : M unit := fun w =>
  (Ok tt, {| time_src := time_src w; ticks := ticks w;
             stdout := stdout w ++ [x]; wire := wire w |}).

(** [time.time()] *)
Definition time : M Z := fun w =>
  (Ok (time_src w (ticks w)),
   {| time_src := time_src w; ticks := S (ticks w);
      stdout := stdout w; wire := wire w |}).

(** [formatdate(timeval=None, localtime=False, usegmt=True)] *)
Definition formatdate_now : M string :=
  timeval ← time; mret (EmailUtils.formatdate timeval).

(** The libraries whose behaviour is not reproduced here:
    - [json_dumps v] is [json.dumps(v)];
    - [prepare m u d] is [requests.Request(m, u, data=d).prepare()];
    - [transport r] is the outcome of the HTTP exchange that
      [Session.send(r)] performs. *)
Class Collaborators : Type := {
  json_dumps : pyval -> result string;
  prepare : string -> string -> string -> result PreparedRequest;
  transport : PreparedRequest -> result Response }.

(** [self._session.send(r)] *)
Definition session_send `{libs : Collaborators} (r : PreparedRequest) : M Response :=
  fun w =>
    (transport r,
     {| time_src := time_src w; ticks := ticks w;
        stdout := stdout w; wire := wire w ++ [r] |}).

(** ** Calls *)

(** Binding of the positional arguments [args] and keyword arguments
    [kwargs] of a call to the parameters [names] of a function that
    ends in [**kwargs]: the values of the parameters and the keyword
    arguments left over. *)
Fixpoint bind_args (names : list string) (args : list pyval)
    (kwargs : gmap string pyval) : result (list pyval * gmap string pyval) :=
  match names, args with
  | [], [] => Ok ([], kwargs)
  | [], _ :: _ => Raise TypeError
  | n :: names', a :: args' =>
      match kwargs !! n with
      | Some _ => Raise TypeError
      | None =>
          '(vs, kw) ← bind_args names' args' kwargs; Ok (a :: vs, kw)
      end
  | n :: names', [] =>
      match kwargs !! n with
      | Some v =>
          '(vs, kw) ← bind_args names' [] (delete n kwargs); Ok (v :: vs, kw)
      | None => Raise TypeError
      end
  end.

(** The client itself, where it is passed as an ordinary value. *)
Definition self_value : pyval := PyObj "<polaris.PAPI object>".

(** The same for a method called on an instance, whose first parameter
    [self] is bound to the instance. *)
Definition method_args (names : list string) (args : list pyval)
    (kwargs : gmap string pyval) : result (list pyval * gmap string pyval) :=
  '(vals, kw) ← bind_args ("self" :: names) (self_value :: args) kwargs;
  Ok (tail vals, kw).

(** The keyword arguments of [f(..., k1=v1, ..., **kwargs)]. *)
Definition merge_keywords (explicit : list (string * pyval))
    (kwargs : gmap string pyval) : result (gmap string pyval) :=
  if existsb (fun k => bool_decide (is_Some (kwargs !! k))) explicit.*1
  then Raise TypeError
  else Ok (list_to_map explicit ∪ kwargs).

(** [kwargs.get(k, d)] *)
Definition get (kwargs : gmap string pyval) (k : string) (d : pyval) : pyval :=
  default d (kwargs !! k).

(** ** The class [PAPI] *)

(** The attributes of a client; its session is the [wire] of the world. *)
Record PAPI : Type := {
  _accessKey : pyval;
  _accessKeyID : pyval;
  _hostname : pyval }.

(** [x + y] for a byte string [x]. *)
Definition str_add (x : string) (y : pyval) : result string :=
  match y with
  | PyStr s => Ok (x +:+ s)
  | _ => Raise TypeError
  end.

(** [for char in v]: the items that iterating over [v] yields. *)
Definition py_iter (v : pyval) : result (list string) :=
  match v with
  | PyStr s => Ok ((fun c => String c "") <$> String.list_ascii_of_string s)
  | PyDict d => Ok d.*1
  | _ => Raise TypeError
  end.

(** [d[k]] *)
Fixpoint getitem (d : list (string * pyval)) (k : string) : result pyval :=
  match d with
  | [] => Raise KeyError
  | (k', v) :: d' => if String.eqb k' k then Ok v else getitem d' k
  end.

(** [s[1:]] *)
Definition tail_str (s : string) : string :=
  match s with
  | EmptyString => EmptyString
  | String _ s' => s'
  end.

Section Client.

Context `{libs : Collaborators}.

(** [PAPI(accessKey, accessKeyID, hostname)] with the positional
    arguments [args]. *)
Definition __init__ (args : list pyval) : M PAPI :=
  match args with
  | [accessKey; accessKeyID; hostname] =>
      mret {| _accessKey := accessKey;
              _accessKeyID := accessKeyID;
              _hostname := hostname |}
  | _ => raise TypeError
  end.

(** [hmac.new(key, message, sha1).digest()]: a key that is not a byte
    string is refused. *)
Definition hmac_sha1 (key : pyval) (message : string) : result (list Z) :=
  match key with
  | PyStr k => Ok (HMAC.digest (bytes_of_string k) (bytes_of_string message))
  | _ => Raise TypeError
  end.

(** [digest.encode('base64')[:-1]] *)
Definition signature_text (digest : list Z) : string :=
  String.string_of_list_ascii (drop_last (Base64.encodestring digest)).

Definition _getPAPIHash (self : PAPI) (HTTPMethod URI HTTPDate : string)
    (patronPassword : pyval) : M string :=
  message ← lift (str_add (HTTPMethod +:+ URI +:+ HTTPDate) patronPassword);
  print message;;
  hashed ← lift (hmac_sha1 (_accessKey self) message);
  mret (signature_text hashed).

(** The inner loops of [_dictParse]: every item equal to a space
    becomes a plus sign. *)
Definition plus_for_space (chars : list string) : string :=
  foldl (fun parsed char =>
           if String.eqb char " " then parsed +:+ "+" else parsed +:+ char)
        "" chars.

Definition _dictParse (self : PAPI) (params : pyval) : result string :=
  match params with
  | PyDict d =>
      parsedParams ←
        foldl (fun acc paramKey =>
                 parsedParams ← acc;
                 keyChars ← py_iter (PyStr paramKey);
                 let parsedParamKey := plus_for_space keyChars in
                 value ← getitem d paramKey;
                 valueChars ← py_iter value;
                 let parsedParamValue := plus_for_space valueChars in
                 Ok (parsedParams +:+ "&" +:+ parsedParamKey +:+ "="
                       +:+ parsedParamValue))
              (Ok "") d.*1;
      if negb (String.eqb parsedParams "")
      then Ok ("?" +:+ tail_str parsedParams)
      else Ok parsedParams
  | _ => Raise AttributeError
  end.

(** The value of [rootURI] in [_undifferentiatied]. *)
Definition rootURI (self : PAPI) (protocol protection : string)
    (kwargs : gmap string pyval) : string :=
  let version := get kwargs "version" (PyStr "v1") in
  let langID := get kwargs "langID" (PyStr "1033") in
  let appID := get kwargs "appID" (PyStr "100") in
  let orgID := get kwargs "orgID" (PyStr "1") in
  protocol +:+ "://" +:+ py_str (_hostname self)
    +:+ "/PAPIService/REST/" +:+ protection
    +:+ "/" +:+ py_str version +:+ "/" +:+ py_str langID
    +:+ "/" +:+ py_str appID +:+ "/" +:+ py_str orgID +:+ "/".

(** The five headers of every request. *)
Definition base_headers (self : PAPI) (signature HTTPDate data : string)
  : gmap string pyval :=
  list_to_map
    [("Authorization",
      PyStr ("PWS " +:+ py_str (_accessKeyID self) +:+ ":" +:+ signature));
     ("Date", PyStr HTTPDate);
     ("Content-Type", PyStr "application/json");
     ("Content-Length", PyInt (Z.of_nat (String.length data)));
     ("Accept", PyStr "application/json")].

Definition _undifferentiatied (self : PAPI)
    (protocol HTTPMethod protection suffixURI : string)
    (kwargs : gmap string pyval) : M Response :=
  paramsSuffix ← lift (_dictParse self (get kwargs "params" (PyDict [])));
  data ← lift (json_dumps (get kwargs "data" (PyDict [])));
  let patronPassword :=
    get kwargs "accessSecret" (get kwargs "patronPassword" (PyStr "")) in
  let accessToken := get kwargs "accessToken" (PyStr "") in
  let rootURI := rootURI self protocol protection kwargs in
  let URI := rootURI +:+ suffixURI +:+ paramsSuffix in
  preparedRequest ← lift (prepare HTTPMethod URI data);
  HTTPDate ← formatdate_now;
  signature ← _getPAPIHash self HTTPMethod (p_url preparedRequest)
                HTTPDate patronPassword;
  print signature;;
  let headers := base_headers self signature HTTPDate data in
  let headers :=
    if truthy accessToken && String.eqb protection "public"
    then <["X-PAPI-AccessToken" := accessToken]> headers
    else headers in
  session_send (with_headers preparedRequest headers).

(** [self._undifferentiatied(protocol, HTTPMethod, protection,
    suffixURI, k1=v1, ..., **kwargs)] *)
Definition call_undifferentiatied (self : PAPI)
    (protocol HTTPMethod protection suffixURI : string)
    (explicit : list (string * pyval)) (kwargs : gmap string pyval)
  : M Response :=
  keywords ← lift (merge_keywords explicit kwargs);
  '(_, keywords) ←
    lift (method_args
            ["protocol"; "HTTPMethod"; "protection"; "suffixURI"]
            [PyStr protocol; PyStr HTTPMethod; PyStr protection;
             PyStr suffixURI] keywords);
  _undifferentiatied self protocol HTTPMethod protection suffixURI keywords.

(** *** The catalogue

    Every method takes the positional arguments [args] and the keyword
    arguments [kwargs] of its call. *)

Definition authenticateStaffUser (self : PAPI) (args : list pyval)
    (kwargs : gmap string pyval) : M Response :=
  '(vals, kwargs) ←
    lift (method_args ["domain"; "username"; "password"] args kwargs);
  match vals with
  | [domain; username; password] =>
      let protocol := "https" in
      let HTTPMethod := "POST" in
      let protection := "protected" in
      let suffixURI := "authenticator/staff" in
      let data := PyDict [("Domain", domain); ("Username", username);
                          ("Password", password)] in
      call_undifferentiatied self protocol HTTPMethod protection suffixURI
        [("data", data)] kwargs
  | _ => raise TypeError
  end.

Definition bibGet (self : PAPI) (args : list pyval)
    (kwargs : gmap string pyval) : M Response :=
  '(vals, kwargs) ← lift (method_args ["bibID"] args kwargs);
  match vals with
  | [bibID] =>
      let protocol := "http" in
      let HTTPMethod := "GET" in
      let protection := "public" in
      let suffixURI := "bib/" +:+ py_str bibID in
      call_undifferentiatied self protocol HTTPMethod protection suffixURI
        [] kwargs
  | _ => raise TypeError
  end.

Definition headingSearch (self : PAPI) (args : list pyval)
    (kwargs : gmap string pyval) : M Response :=
  '(vals, kwargs) ← lift (method_args ["qualifierName"; "params"] args kwargs);
  match vals with
  | [qualifierName; params] =>
      let protocol := "http" in
      let HTTPMethod := "GET" in
      let protection := "public" in
      let suffixURI := "search/headings/" +:+ py_str qualifierName in
      call_undifferentiatied self protocol HTTPMethod protection suffixURI
        [("params", params)] kwargs
  | _ => raise TypeError
  end.

Definition holdRequestCancel (self : PAPI) (args : list pyval)
    (kwargs : gmap string pyval) : M Response :=
  '(vals, kwargs) ←
    lift (method_args ["patronBarcode"; "patronPassword"; "requestID";
                       "workstationID"; "userID"] args kwargs);
  match vals with
  | [patronBarcode; patronPassword; requestID; workstationID; userID] =>
      let protocol := "http" in
      let HTTPMethod := "PUT" in
      let protection := "public" in
      let params := PyDict [("wsid", workstationID); ("userid", userID)] in
      let suffixURI :=
        "patron/" +:+ py_str patronBarcode +:+ "/holdrequests/"
          +:+ py_str requestID +:+ "/cancelled" in
      call_undifferentiatied self protocol HTTPMethod protection suffixURI
        [("patronPassword", patronPassword); ("params", params)] kwargs
  | _ => raise TypeError
  end.

Definition holdRequestCancelAllForPatron (self : PAPI) (args : list pyval)
    (kwargs : gmap string pyval) : M Response :=
  '(vals, kwargs) ←
    lift (method_args ["patronBarcode"; "patronPassword"; "workstationID";
                       "userID"] args kwargs);
  match vals with
  | [patronBarcode; patronPassword; workstationID; userID] =>
      holdRequestCancel self
        [patronBarcode; patronPassword; PyInt 0; workstationID; userID]
        kwargs
  | _ => raise TypeError
  end.

Definition itemRenew (self : PAPI) (args : list pyval)
    (kwargs : gmap string pyval) : M Response :=
  '(vals, kwargs) ←
    lift (method_args ["patronBarcode"; "patronPassword"; "itemID";
                       "logonBranchID"; "logonUserID"; "logonWorkstationID";
                       "ignoreOverrideErrors"] args kwargs);
  match vals with
  | [patronBarcode; patronPassword; itemID; logonBranchID; logonUserID;
     logonWorkstationID; ignoreOverrideErrors] =>
      let protocol := "http" in
      let HTTPMethod := "PUT" in
      let protection := "public" in
      let suffixURI :=
        "patron/" +:+ py_str patronBarcode +:+ "/itemsout/"
          +:+ py_str itemID in
      let data :=
        PyDict [("Action", PyStr "renew");
                ("LogonBranchID", logonBranchID);
                ("LogonUserID", logonUserID);
                ("LogonWorkstationID", logonWorkstationID);
                ("RenewData",
                 PyDict [("IgnoreOverrideErrors", ignoreOverrideErrors)])] in
      call_undifferentiatied self protocol HTTPMethod protection suffixURI
        [("patronPassword", patronPassword); ("data", data)] kwargs
  | _ => raise TypeError
  end.

Definition itemRenewAllForPatron (self : PAPI) (args : list pyval)
    (kwargs : gmap string pyval) : M Response :=
  '(vals, kwargs) ←
    lift (method_args ["patronBarcode"; "patronPassword"; "logonBranchID";
                       "logonUserID"; "logonWorkstationID";
                       "ignoreOverrideErrors"] args kwargs);
  match vals with
  | [patronBarcode; patronPassword; logonBranchID; logonUserID;
     logonWorkstationID; ignoreOverrideErrors] =>
      itemRenew self
        [self_value; patronBarcode; patronPassword; PyInt 0; logonBranchID;
         logonUserID; logonWorkstationID; ignoreOverrideErrors]
        kwargs
  | _ => raise TypeError
  end.

Definition notificationUpdate (self : PAPI) (args : list pyval)
    (kwargs : gmap string pyval) : M Response :=
  '(vals, kwargs) ←
    lift (method_args
            ["accessToken"; "accessSecret"; "notificationTypeID";
             "logonBranchID"; "logonUserID"; "logonWorkstationID";
             "notificationStatusID"; "notificationDeliveryDate";
             "deliveryOptionID"; "deliveryString"; "patronID";
             "patronLanguageID"] args kwargs);
  match vals with
  | [accessToken; accessSecret; notificationTypeID; logonBranchID;
     logonUserID; logonWorkstationID; notificationStatusID;
     notificationDeliveryDate; deliveryOptionID; deliveryString; patronID;
     patronLanguageID] =>
      let protocol := "http" in
      let HTTPMethod := "PUT" in
      let protection := "protected" in
      let suffixURI :=
        py_str accessToken +:+ "/notification/"
          +:+ py_str notificationTypeID in
      let data :=
        PyDict [("LogonBranchID", logonBranchID);
                ("LogonUserID", logonUserID);
                ("LogonWorkstationID", logonWorkstationID);
                ("ReportingOrgID", get kwargs "reportingOrgID" PyNone);
                ("NotificationStatusID", notificationStatusID);
                ("NotificationDeliveryDate", notificationDeliveryDate);
                ("DeliveryOptionID", deliveryOptionID);
                ("DeliveryString", deliveryString);
                ("Details", get kwargs "details" PyNone);
                ("PatronID", patronID);
                ("PatronLanguageID", patronLanguageID);
                ("ItemRecordID", get kwargs "itemRecordID" PyNone)] in
      call_undifferentiatied self protocol HTTPMethod protection suffixURI
        [("accessSecret", accessSecret); ("data", data)] kwargs
  | _ => raise TypeError
  end.

Definition patronBasicDataGet (self : PAPI) (args : list pyval)
    (kwargs : gmap string pyval) : M Response :=
  '(vals, kwargs) ←
    lift (method_args ["patronBarcode"; "patronPassword"] args kwargs);
  match vals with
  | [patronBarcode; patronPassword] =>
      let protocol := "http" in
      let HTTPMethod := "GET" in
      let protection := "public" in
      let suffixURI := "patron/" +:+ py_str patronBarcode +:+ "/basicdata" in
      call_undifferentiatied self protocol HTTPMethod protection suffixURI
        [("patronPassword", patronPassword)] kwargs
  | _ => raise TypeError
  end.

Definition patronAccountPay (self : PAPI) (args : list pyval)
    (kwargs : gmap string pyval) : M Response :=
  '(vals, kwargs) ←
    lift (method_args
            ["accessToken"; "accessSecret"; "patronBarcode"; "chargeTxnID";
             "txnAmount"; "paymentMethodID"; "workstationID"; "userID"]
            args kwargs);
  match vals with
  | [accessToken; accessSecret; patronBarcode; chargeTxnID; txnAmount;
     paymentMethodID; workstationID; userID] =>
      let protocol := "https" in
      let HTTPMethod := "PUT" in
      let protection := "protected" in
      let suffixURI :=
        py_str accessToken +:+ "/patron/" +:+ py_str patronBarcode
          +:+ "/account/" +:+ py_str chargeTxnID +:+ "/pay" in
      let data :=
        PyDict [("TxnAmount", txnAmount);
                ("PaymentMethodID", paymentMethodID);
                ("FreeTextNote", get kwargs "freeTextNote" PyNone)] in
      let params := PyDict [("wsid", workstationID); ("userid", userID)] in
      call_undifferentiatied self protocol HTTPMethod protection suffixURI
        [("accessSecret", accessSecret); ("data", data); ("params", params)]
        kwargs
  | _ => raise TypeError
  end.

Definition createPatronBlocks (self : PAPI) (args : list pyval)
    (kwargs : gmap string pyval) : M Response :=
  '(vals, kwargs) ←
    lift (method_args
            ["accessToken"; "accessSecret"; "patronBarcode"; "blockTypeID";
             "blockValue"] args kwargs);
  match vals with
  | [accessToken; accessSecret; patronBarcode; blockTypeID; blockValue] =>
      let protocol := "https" in
      let HTTPMethod := "POST" in
      let protection := "protected" in
      let suffixURI :=
        py_str accessToken +:+ "/patron/" +:+ py_str patronBarcode
          +:+ "/blocks" in
      let data := PyDict [("BlockTypeID", blockTypeID);
                          ("BlockValue", blockValue)] in
      call_undifferentiatied self protocol HTTPMethod protection suffixURI
        [("accessSecret", accessSecret); ("data", data)] kwargs
  | _ => raise TypeError
  end.

Definition patronRenewBlocksGet (self : PAPI) (args : list pyval)
    (kwargs : gmap string pyval) : M Response :=
  '(vals, kwargs) ←
    lift (method_args ["accessToken"; "accessSecret"; "patronID"]
            args kwargs);
  match vals with
  | [accessToken; accessSecret; patronID] =>
      let protocol := "https" in
      let HTTPMethod := "GET" in
      let protection := "protected" in
      let suffixURI :=
        py_str accessToken +:+ "/circulation/patron/" +:+ py_str patronID
          +:+ "/renewblocks" in
      call_undifferentiatied self protocol HTTPMethod protection suffixURI
        [("accessSecret", accessSecret)] kwargs
  | _ => raise TypeError
  end.

Definition patronSearch (self : PAPI) (args : list pyval)
    (kwargs : gmap string pyval) : M Response :=
  '(vals, kwargs) ←
    lift (method_args ["accessToken"; "accessSecret"; "params"] args kwargs);
  match vals with
  | [accessToken; accessSecret; params] =>
      let protocol := "https" in
      let HTTPMethod := "GET" in
      let protection := "protected" in
      let suffixURI := py_str accessToken +:+ "/search/patrons/Boolean" in
      call_undifferentiatied self protocol HTTPMethod protection suffixURI
        [("accessSecret", accessSecret); ("params", params)] kwargs
  | _ => raise TypeError
  end.

Definition synchItemsByBibIDGet (self : PAPI) (args : list pyval)
    (kwargs : gmap string pyval) : M Response :=
  '(vals, kwargs) ←
    lift (method_args ["accessToken"; "accessSecret"; "bibID"] args kwargs);
  match vals with
  | [accessToken; accessSecret; bibID] =>
      let protocol := "https" in
      let HTTPMethod := "GET" in
      let protection := "protected" in
      let suffixURI :=
        py_str accessToken +:+ "/synch/items/bibid/" +:+ py_str bibID in
      call_undifferentiatied self protocol HTTPMethod protection suffixURI
        [("accessSecret", accessSecret)] kwargs
  | _ => raise TypeError
  end.

Definition synchTasksCheckout (self : PAPI) (args : list pyval)
    (kwargs : gmap string pyval) : M Response :=
  '(vals, kwargs) ←
    lift (method_args
            ["accessToken"; "accessSecret"; "workstationID"; "userID";
             "vendorID"; "vendorContractID"; "uniqueRecordID";
             "patronBarcode"; "itemExpireDateTime"; "transactionDateTime"]
            args kwargs);
  match vals with
  | [accessToken; accessSecret; workstationID; userID; vendorID;
     vendorContractID; uniqueRecordID; patronBarcode; itemExpireDateTime;
     transactionDateTime] =>
      let protocol := "https" in
      let HTTPMethod := "PUT" in
      let protection := "protected" in
      let params := PyDict [("wsid", workstationID); ("userid", userID)] in
      let data :=
        PyDict [("VendorID", vendorID);
                ("VendorContractID", vendorContractID);
                ("UniqueRecordID", uniqueRecordID);
                ("PatronBarcode", patronBarcode);
                ("ItemExpireDateTime",
                 PyStr ("/Date(" +:+ py_str itemExpireDateTime
                          +:+ "000-0000)/"));
                ("TransactionDateTime",
                 PyStr ("/Date(" +:+ py_str transactionDateTime
                          +:+ "000-0000)/"))] in
      let suffixURI := py_str accessToken +:+ "/synch/tasks/checkout" in
      call_undifferentiatied self protocol HTTPMethod protection suffixURI
        [("accessSecret", accessSecret); ("params", params); ("data", data)]
        kwargs
  | _ => raise TypeError
  end.

Definition bibSearch (self : PAPI) (args : list pyval)
    (kwargs : gmap string pyval) : M Response :=
  '(vals, kwargs) ← lift (method_args ["qualifierName"; "params"] args kwargs);
  match vals with
  | [qualifierName; params] =>
      let protocol := "http" in
      let HTTPMethod := "GET" in
      let protection := "public" in
      let suffixURI := "search/bibs/keyword/" +:+ py_str qualifierName in
      call_undifferentiatied self protocol HTTPMethod protection suffixURI
        [("params", params)] kwargs
  | _ => raise TypeError
  end.

Definition holdRequestCreate (self : PAPI) (args : list pyval)
    (kwargs : gmap string pyval) : M Response :=
  '(vals, kwargs) ←
    lift (method_args ["patronID"; "bibID"; "pickupOrgID"; "workstationID";
                       "userID"; "requestingOrgID"] args kwargs);
  match vals with
  | [patronID; bibID; pickupOrgID; workstationID; userID; requestingOrgID] =>
      let protocol := "http" in
      let HTTPMethod := "POST" in
      let protection := "public" in
      let suffixURI := "holdrequest" in
      now ← time;
      let data :=
        PyDict [("PatronID", patronID);
                ("BibID", bibID);
                ("ItemBarcode", get kwargs "itemBarcode" (PyStr ""));
                ("VolumeNumber", get kwargs "volumeNumber" (PyStr ""));
                ("Designation", get kwargs "designation" (PyStr ""));
                ("PickupOrgID", pickupOrgID);
                ("IsBorrowByMail", get kwargs "isBorrowByMail" (PyStr "0"));
                ("PatronNotes", get kwargs "patronNotes" (PyStr ""));
                ("Answer", get kwargs "answer" PyNone);
                ("ActivationDate",
                 PyStr ("/Date("
                          +:+ py_str (get kwargs "activationDate"
                                        (PyStr (dec now)))
                          +:+ "000-0000)/"));
                ("UserID", userID);
                ("RequestingOrgID", requestingOrgID);
                ("TargetGUID", get kwargs "targetGUID" (PyStr ""))] in
      call_undifferentiatied self protocol HTTPMethod protection suffixURI
        [("data", data)] kwargs
  | _ => raise TypeError
  end.

Definition holdRequestSuspend (self : PAPI) (args : list pyval)
    (kwargs : gmap string pyval) : M Response :=
  '(vals, kwargs) ←
    lift (method_args ["patronBarcode"; "patronPassword"; "requestID";
                       "activity"; "userID"; "activationDate"] args kwargs);
  match vals with
  | [patronBarcode; patronPassword; requestID; activity; userID;
     activationDate] =>
      let protocol := "http" in
      let HTTPMethod := "PUT" in
      let protection := "public" in
      let suffixURI :=
        "patron/" +:+ py_str patronBarcode +:+ "/holdrequests/"
          +:+ py_str requestID +:+ "/" +:+ py_str activity in
      let data :=
        PyDict [("UserID", userID);
                ("ActivationDate",
                 PyStr ("/Date(" +:+ py_str activationDate
                          +:+ "000-0000)/"))] in
      call_undifferentiatied self protocol HTTPMethod protection suffixURI
        [("patronPassword", patronPassword); ("data", data)] kwargs
  | _ => raise TypeError
  end.

Definition holdRequestSuspendAllForPatron (self : PAPI) (args : list pyval)
    (kwargs : gmap string pyval) : M Response :=
  '(vals, kwargs) ←
    lift (method_args ["patronBarcode"; "patronPassword"; "activity";
                       "userID"] args kwargs);
  match vals with
  | [patronBarcode; patronPassword; activity; userID] =>
      holdRequestSuspend self
        [patronBarcode; patronPassword; PyStr "0"; activity; userID]
        kwargs
  | _ => raise TypeError
  end.

Definition patronReadingHistoryGet (self : PAPI) (args : list pyval)
    (kwargs : gmap string pyval) : M Response :=
  '(vals, kwargs) ←
    lift (method_args ["patronBarcode"; "patronPassword"; "page";
                       "rowsPerPage"] args kwargs);
  match vals with
  | [patronBarcode; patronPassword; page; rowsPerPage] =>
      let protocol := "http" in
      let HTTPMethod := "GET" in
      let protection := "public" in
      let suffixURI :=
        "patron/" +:+ py_str patronBarcode +:+ "/readinghistory" in
      let params := PyDict [("page", page); ("rowsperpage", rowsPerPage)] in
      call_undifferentiatied self protocol HTTPMethod protection suffixURI
        [("patronPassword", patronPassword); ("params", params)] kwargs
  | _ => raise TypeError
  end.

End Client.

(** ** A reference behaviour of the collaborators

    Used to run the client on concrete calls: [json.dumps] on ASCII
    data, the quoting that [requests] applies to a URL when it prepares
    a request ([requests.utils.requote_uri]; parsing the URL and putting
    it together again changes nothing in the URLs built here), and a
    transport whose exchanges succeed. *)

Module Reference.

Definition letters_digits : string :=
  "ABCDEFGHIJKLMNOPQRSTUVWXYZabcdefghijklmnopqrstuvwxyz0123456789".

Definition upper_hex_digit (d : Z) : ascii :=
  ascii_of_byte (if d <? 10 then 48 + d else 55 + d).

(** [urllib.quote(s, safe)] *)
Definition quote (safe : string) (s : list ascii) : list ascii :=
  mjoin ((fun c =>
            if has_char c (letters_digits +:+ "_.-" +:+ safe) then [c]
            else let n := byte_of_ascii c in
                 ["%"%char; upper_hex_digit (n / 16); upper_hex_digit (n mod 16)])
         <$> s).

Definition hex_value (c : ascii) : option Z :=
  let n := byte_of_ascii c in
  if (48 <=? n) && (n <=? 57) then Some (n - 48)
  else if (65 <=? n) && (n <=? 70) then Some (n - 55)
  else if (97 <=? n) && (n <=? 102) then Some (n - 87)
  else None.

Definition isalnum (c : ascii) : bool := has_char c letters_digits.

(** [requests.utils.unquote_unreserved]; [None] stands for the
    exception [InvalidURL]. *)
Fixpoint unquote_unreserved (uri : list ascii) : option (list ascii) :=
  match uri with
  | [] => Some []
  | c :: part =>
      if Ascii.eqb c "%" then
        match part with
        | a :: b :: rest =>
            if isalnum a && isalnum b then
              match hex_value a, hex_value b with
              | Some x, Some y =>
                  let ch := ascii_of_byte (16 * x + y) in
                  if has_char ch (letters_digits +:+ "-._~")
                  then cons ch <$> unquote_unreserved rest
                  else (fun r => c :: a :: b :: r) <$> unquote_unreserved rest
              | _, _ => None
              end
            else cons c <$> unquote_unreserved part
        | _ => cons c <$> unquote_unreserved part
        end
      else cons c <$> unquote_unreserved part
  end.

(** [requests.utils.requote_uri] *)
Definition requote_uri (uri : string) : string :=
  let l := String.list_ascii_of_string uri in
  String.string_of_list_ascii
    match unquote_unreserved l with
    | Some u => quote "!#$%&'()*+,/:;=?@[]~" u
    | None => quote "!#$&'()*+,/:;=?@[]~" l
    end.

Definition prepare_request (method url data : string)
  : result PreparedRequest :=
  Ok {| p_method := str_upper method; p_url := requote_uri url;
        p_headers := ∅; p_body := data |}.

(** [json.dumps] of a byte string of ASCII characters. *)
Definition json_char (c : ascii) : list ascii :=
  let n := byte_of_ascii c in
  if Ascii.eqb c "034" || Ascii.eqb c "\" then ["\"%char; c]
  else if n =? 10 then ["\"%char; "n"%char]
  else if n =? 13 then ["\"%char; "r"%char]
  else if n =? 9 then ["\"%char; "t"%char]
  else if n =? 12 then ["\"%char; "f"%char]
  else if n =? 8 then ["\"%char; "b"%char]
  else if (n <? 32) || (126 <? n) then
    ["\"%char; "u"%char; "0"%char; "0"%char;
     hex_digit (n / 16); hex_digit (n mod 16)]
  else [c].

Definition json_str (s : string) : result string :=
  let l := String.list_ascii_of_string s in
  if forallb (fun c => byte_of_ascii c <? 128) l
  then Ok (String.string_of_list_ascii
             ("034"%char :: mjoin (json_char <$> l) ++ ["034"%char]))
  else Raise (LibraryError "UnicodeDecodeError").

Fixpoint dumps (v : pyval) : result string :=
  match v with
  | PyNone => Ok "null"
  | PyBool b => Ok (if b then "true" else "false")
  | PyInt z => Ok (dec z)
  | PyStr s => json_str s
  | PyDict d =>
      items ←
        (fix items (d : list (string * pyval)) : result (list string) :=
           match d with
           | [] => Ok []
           | (k, v) :: d' =>
               k' ← json_str k;
               v' ← dumps v;
               rest ← items d';
               Ok ((k' +:+ ": " +:+ v') :: rest)
           end) d;
      Ok ("{" +:+ join ", " items +:+ "}")
  | PyObj _ => Raise TypeError
  end.

Definition exchange (r : PreparedRequest) : result Response :=
  Ok {| status_code := 200; content := "" |}.

Definition libs : Collaborators :=
  {| json_dumps := dumps;
     prepare := prepare_request;
     transport := exchange |}.

(** A world whose clock shows 2017-04-01 14:46:40 and advances by one
    second at every reading. *)
Definition world0 : world :=
  {| time_src := fun n => 1491058000 + Z.of_nat n;
     ticks := 0; stdout := []; wire := [] |}.

Definition client0 : PAPI :=
  {| _accessKey := PyStr "0123456789abcdef";
     _accessKeyID := PyStr "apiuser";
     _hostname := PyStr "papi.example.org" |}.

End Reference.


(** ** What the specification says, in the terms of the model *)

(** The password that enters the signature: the access secret of the
    call if there is one, else its patron password if there is one, else
    the empty text. *)
Definition password (kwargs : gmap string pyval) : pyval :=
  match kwargs !! "accessSecret" with
  | Some secret => secret
  | None =>
      match kwargs !! "patronPassword" with
      | Some patronPassword => patronPassword
      | None => PyStr ""
      end
  end.

(** The methods that the catalogue names. *)
Definition HTTP_methods : list string := ["GET"; "POST"; "PUT"; "DELETE"].

(** The [Authorization] header of [req] carries the signature, under the
    key of [self], of the upper-case method, [url], the value of the
    [Date] header of [req] and the password [pw], put end to end. *)
Definition signed_over (self : PAPI) (req : PreparedRequest)
    (HTTPMethod url : string) (pw : pyval) : Prop :=
  ∃ key date p,
    _accessKey self = PyStr key ∧
    p_headers req !! "Date" = Some (PyStr date) ∧
    pw = PyStr p ∧
    p_headers req !! "Authorization"
    = Some (PyStr ("PWS " +:+ py_str (_accessKeyID self) +:+ ":"
                     +:+ signature_text
                           (HMAC.digest (bytes_of_string key)
                              (bytes_of_string
                                 (str_upper HTTPMethod +:+ url +:+ date
                                    +:+ p))))).

(** The signature of a request that a call of the core routine hands to
    the session covers the URL as the routine put it together: root,
    operation suffix, query suffix. *)
Definition signs_assembled_URL `{libs : Collaborators} (self : PAPI)
    (protocol HTTPMethod protection suffixURI : string)
    (kwargs : gmap string pyval) (w : world) : Prop :=
  ∀ req,
    wire (_undifferentiatied self protocol HTTPMethod protection suffixURI
            kwargs w).2 = wire w ++ [req] →
    ∃ paramsSuffix,
      _dictParse self (get kwargs "params" (PyDict [])) = Ok paramsSuffix ∧
      signed_over self req HTTPMethod
        (rootURI self protocol protection kwargs +:+ suffixURI
           +:+ paramsSuffix)
        (password kwargs).

(** The request of [bibGet('a b')] on the reference client at the
    reference time. *)
Definition request_bib_a_b : PreparedRequest :=
  {| p_method := "GET";
     p_url := "http://papi.example.org/PAPIService/REST/public/v1/1033/100/1/bib/a%20b";
     p_headers :=
       list_to_map
         [("Authorization", PyStr "PWS apiuser:6cyY57PjFNq0aqMOmyFjGHeVpEI=");
          ("Date", PyStr "Sat, 01 Apr 2017 14:46:40 GMT");
          ("Content-Type", PyStr "application/json");
          ("Content-Length", PyInt 2);
          ("Accept", PyStr "application/json")];
     p_body := "{}" |}.

(** The query suffix in the words of the specification: every space of
    every key and value becomes a plus sign and no other character
    changes, the pairs [key=value] are joined by [&], and a question
    mark goes in front unless the mapping is empty. *)
Fixpoint encode_spaces (s : string) : string :=
  match s with
  | EmptyString => EmptyString
  | String c s' =>
      String (if Ascii.eqb c " " then "+"%char else c) (encode_spaces s')
  end.

Definition query_suffix (P : list (string * string)) : string :=
  match P with
  | [] => ""
  | _ =>
      "?" +:+ join "&" ((fun kv => encode_spaces kv.1 +:+ "="
                                     +:+ encode_spaces kv.2) <$> P)
  end.

(** The text that the outer loop of [_dictParse] builds. *)
Definition pairs_text (P : list (string * string)) : string :=
  foldr (fun kv rest => "&" +:+ encode_spaces kv.1 +:+ "="
                          +:+ encode_spaces kv.2 +:+ rest) "" P.

(** A dictionary from text to text as a Python value. *)
Definition text_dict (P : list (string * string)) : pyval :=
  PyDict (prod_map id PyStr <$> P).

(** The signature that [_getPAPIHash] returns is the standard base64
    text of the digest without its last character, which is the padding
    character. *)
Definition strips_padding (self : PAPI) (HTTPMethod URI HTTPDate : string)
    (patronPassword : pyval) (w : world) : Prop :=
  ∀ signature,
    (_getPAPIHash self HTTPMethod URI HTTPDate patronPassword w).1
    = Ok signature →
    ∃ key p,
      _accessKey self = PyStr key ∧ patronPassword = PyStr p ∧
      let digest :=
        HMAC.digest (bytes_of_string key)
          (bytes_of_string (HTTPMethod +:+ URI +:+ HTTPDate +:+ p)) in
      last (Base64.encode digest) = Some "="%char ∧
      signature = String.string_of_list_ascii (drop_last (Base64.encode digest)).

(** The shape of an HTTP date (RFC 1123, as RFC 2822 writes dates, in
    GMT): [Www, DD Mon YYYY HH:MM:SS GMT]. *)
Definition is_digit (c : ascii) : bool :=
  let n := byte_of_ascii c in (48 <=? n) && (n <=? 57).

Definition is_name (names : list string) (a b c : ascii) : bool :=
  existsb (String.eqb (String a (String b (String c "")))) names.

Definition is_http_date (s : string) : bool :=
  match String.list_ascii_of_string s with
  | [w1; w2; w3; c1; sp1; d1; d2; sp2; m1; m2; m3; sp3; y1; y2; y3; y4; sp4;
     h1; h2; c2; n1; n2; c3; s1; s2; sp5; z1; z2; z3] =>
      is_name EmailUtils.day_names w1 w2 w3
      && Ascii.eqb c1 "," && Ascii.eqb sp1 " "
      && is_digit d1 && is_digit d2 && Ascii.eqb sp2 " "
      && is_name EmailUtils.month_names m1 m2 m3 && Ascii.eqb sp3 " "
      && is_digit y1 && is_digit y2 && is_digit y3 && is_digit y4
      && Ascii.eqb sp4 " "
      && is_digit h1 && is_digit h2 && Ascii.eqb c2 ":"
      && is_digit n1 && is_digit n2 && Ascii.eqb c3 ":"
      && is_digit s1 && is_digit s2 && Ascii.eqb sp5 " "
      && Ascii.eqb z1 "G" && Ascii.eqb z2 "M" && Ascii.eqb z3 "T"
  | _ => false
  end.

Definition all_digits (n : nat) (s : string) : bool :=
  (String.length s =? n)%nat
  && forallb is_digit (String.list_ascii_of_string s).

Definition a_name (names : list string) (s : string) : bool :=
  match s with
  | String a (String b (String c EmptyString)) => is_name names a b c
  | _ => false
  end.

(** The [Authorization] header of [req] carries the signature of
    [message] under the key of [self]. *)
Definition carries_signature_of (self : PAPI) (req : PreparedRequest)
    (message : string) : Prop :=
  ∃ key,
    _accessKey self = PyStr key ∧
    p_headers req !! "Authorization"
    = Some (PyStr ("PWS " +:+ py_str (_accessKeyID self) +:+ ":"
                     +:+ signature_text
                           (HMAC.digest (bytes_of_string key)
                              (bytes_of_string message)))).

(** A value that stands for no value. *)
Definition absent (v : pyval) : Prop := v = PyNone ∨ v = PyStr "".

(** Construction with the arguments [args] fails whenever the key, the
    key identifier or the host is missing from them or absent. *)
Definition rejects_absent (args : list pyval) (w : world) : Prop :=
  (length args < 3)%nat ∨ (∃ v, v ∈ args ∧ absent v) →
  ∃ e, __init__ args w = (Raise e, w).

(** The request of [bibGet('353063', accessToken='tok')] on the
    reference client at the reference time. *)
Definition request_bib_with_token : PreparedRequest :=
  {| p_method := "GET";
     p_url := "http://papi.example.org/PAPIService/REST/public/v1/1033/100/1/bib/353063";
     p_headers :=
       list_to_map
         [("Authorization", PyStr "PWS apiuser:fWABlMi8c+obMUVvh9XgKY1HNtI=");
          ("Date", PyStr "Sat, 01 Apr 2017 14:46:40 GMT");
          ("Content-Type", PyStr "application/json");
          ("Content-Length", PyInt 2);
          ("Accept", PyStr "application/json");
          ("X-PAPI-AccessToken", PyStr "tok")];
     p_body := "{}" |}.

(** ** Further notions used by the properties of the whole class *)

(** [w'] is [w] after [dt] readings of the clock, with the texts [out]
    printed and the requests [reqs] handed to the session. *)
Definition advanced (w w' : world) (dt : nat) (out : list string)
    (reqs : list PreparedRequest) : Prop :=
  time_src w' = time_src w
  ∧ ticks w' = (ticks w + dt)%nat
  ∧ stdout w' = stdout w ++ out
  ∧ wire w' = wire w ++ reqs.

(** The keywords that the core routine reads. *)
Definition core_keywords : list string :=
  ["version"; "langID"; "appID"; "orgID"; "params"; "data"; "accessSecret";
   "patronPassword"; "accessToken"].

(** The names of the headers that the core routine sets. *)
Definition header_names : list string :=
  ["Authorization"; "Date"; "Content-Type"; "Content-Length"; "Accept";
   "X-PAPI-AccessToken"].

(** The parameters of [_undifferentiatied], which no keyword of a call
    may name. *)
Definition core_parameters : list string :=
  ["self"; "protocol"; "HTTPMethod"; "protection"; "suffixURI"].

(** [v] is a byte string. *)
Definition is_text (v : pyval) : bool :=
  match v with PyStr _ => true | _ => false end.

(** [v] is [None], a boolean or a number. *)
Definition is_scalar (v : pyval) : bool :=
  match v with PyNone | PyBool _ | PyInt _ => true | _ => false end.

(** Iterating over [v] is possible. *)
Definition iterable (v : pyval) : bool :=
  match v with PyStr _ | PyDict _ => true | _ => false end.

Definition no_space (s : string) : bool := negb (has_char " "%char s).

(** The characters of base64 text. *)
Definition base64_char (c : ascii) : bool :=
  existsb (Ascii.eqb c) (Base64.alphabet ++ ["="%char]).

(** The function that the outer loop of [_dictParse] folds over the keys
    of the dictionary [d]. *)
Definition dictParse_step (d : list (string * pyval))
    (acc : result string) (paramKey : string) : result string :=
  parsedParams ← acc;
  keyChars ← py_iter (PyStr paramKey);
  let parsedParamKey := plus_for_space keyChars in
  value ← getitem d paramKey;
  valueChars ← py_iter value;
  let parsedParamValue := plus_for_space valueChars in
  Ok (parsedParams +:+ "&" +:+ parsedParamKey +:+ "=" +:+ parsedParamValue).

(** A byte. *)
Definition is_byte (b : Z) : Prop := 0 ≤ b < 256.

(** The last request that a run handed to the session, and the [n]-th. *)
Definition no_request_yet : PreparedRequest :=
  {| p_method := ""; p_url := ""; p_headers := ∅; p_body := "" |}.

Definition last_request (run : result Response * world) : PreparedRequest :=
  default no_request_yet (last (wire run.2)).

Definition request_at (n : nat) (run : result Response * world)
  : PreparedRequest :=
  default no_request_yet (wire run.2 !! n).

(** * Properties *)

(** ** The library functions on published vectors *)

Example sha1_abc :
  hex (SHA1.digest (bytes_of_string "abc"))
  = "a9993e364706816aba3e25717850c26c9cd0d89d".
Proof. vm_compute. reflexivity. Qed.

Example sha1_two_blocks :
  hex (SHA1.digest (bytes_of_string
         "abcdbcdecdefdefgefghfghighijhijkijkljklmklmnlmnomnopnopq"))
  = "84983e441c3bd26ebaae4aa1f95129e5e54670f1".
Proof. vm_compute. reflexivity. Qed.

Example hmac_sha1_rfc2202_2 :
  hex (HMAC.digest (bytes_of_string "Jefe")
         (bytes_of_string "what do ya want for nothing?"))
  = "effcdf6ae5eb2fa2d27416d5f184df9c259a7c79".
Proof. vm_compute. reflexivity. Qed.

Example hmac_sha1_rfc2202_6 :
  hex (HMAC.digest (replicate 80 170)
         (bytes_of_string
            "Test Using Larger Than Block-Size Key - Hash Key First"))
  = "aa4ae5e15272d00e95705637ce8a3b55ed402112".
Proof. vm_compute. reflexivity. Qed.

Example base64_rfc4648 :
  String.string_of_list_ascii (Base64.encode (bytes_of_string "foobar"))
  = "Zm9vYmFy"
  ∧ String.string_of_list_ascii (Base64.encode (bytes_of_string "fooba"))
    = "Zm9vYmE="
  ∧ String.string_of_list_ascii (Base64.encode (bytes_of_string "foob"))
    = "Zm9vYg==".
Proof. vm_compute. done. Qed.

Example formatdate_examples :
  EmailUtils.formatdate 0 = "Thu, 01 Jan 1970 00:00:00 GMT"
  ∧ EmailUtils.formatdate 951782400 = "Tue, 29 Feb 2000 00:00:00 GMT"
  ∧ EmailUtils.formatdate 1491058000 = "Sat, 01 Apr 2017 14:46:40 GMT".
Proof. vm_compute. done. Qed.

Example requote_uri_space :
  Reference.requote_uri "http://h/bib/a b?q=x+y" = "http://h/bib/a%20b?q=x+y".
Proof. vm_compute. reflexivity. Qed.

(** ** The core routine, step by step *)

Lemma app_singleton_neq {A} (l : list A) (x : A) : l ≠ l ++ [x].
Proof.
  intros E. apply (f_equal length) in E. rewrite length_app in E. simpl in E. lia.
Qed.

Lemma str_app_assoc (a b c : string) : (a +:+ b) +:+ c = a +:+ b +:+ c.
Proof.
  induction a as [|x a IH]; [done|].
  change (String x ((a +:+ b) +:+ c) = String x (a +:+ b +:+ c)).
  by rewrite IH.
Qed.

Ltac no_request :=
  match goal with
  | E : wire _ = wire _ ++ [_] |- _ =>
      solve [ exfalso; simpl in E; exact (app_singleton_neq _ _ E)
            | exfalso; simpl in E; rewrite <- app_assoc in E; simpl in E;
              apply (f_equal length) in E; rewrite !length_app in E; simpl in E; lia ]
  end.

Section Core.
Context `{libs : Collaborators}.

Lemma undifferentiatied_inv self protocol meth prot suf kw w req :
  wire (_undifferentiatied self protocol meth prot suf kw w).2 = wire w ++ [req] →
  ∃ paramsSuffix data prepared pw key,
    _dictParse self (get kw "params" (PyDict [])) = Ok paramsSuffix ∧
    json_dumps (get kw "data" (PyDict [])) = Ok data ∧
    prepare meth (rootURI self protocol prot kw +:+ suf +:+ paramsSuffix) data
      = Ok prepared ∧
    get kw "accessSecret" (get kw "patronPassword" (PyStr "")) = PyStr pw ∧
    _accessKey self = PyStr key ∧
    let date := EmailUtils.formatdate (time_src w (ticks w)) in
    let message := meth +:+ p_url prepared +:+ date +:+ pw in
    let signature :=
      signature_text (HMAC.digest (bytes_of_string key) (bytes_of_string message)) in
    let headers := base_headers self signature date data in
    let token := get kw "accessToken" (PyStr "") in
    req = with_headers prepared
            (if truthy token && String.eqb prot "public"
             then <["X-PAPI-AccessToken" := token]> headers else headers) ∧
    _undifferentiatied self protocol meth prot suf kw w
    = (transport req,
       {| time_src := time_src w; ticks := S (ticks w);
          stdout := stdout w ++ [message; signature];
          wire := wire w ++ [req] |}).
Proof.
  unfold _undifferentiatied, _getPAPIHash, formatdate_now, time, print,
    session_send, lift, mbind, M_bind, mret, M_ret.
  intros E.
  destruct (_dictParse _ _) as [paramsSuffix|] eqn:Ep; [|no_request].
  destruct (json_dumps _) as [data|] eqn:Ed; [|no_request].
  destruct (prepare _ _ _) as [prepared|] eqn:Epr; [|no_request].
  destruct (get kw "accessSecret" _) as [| | |pw| |] eqn:Epw; simpl in E;
    try no_request.
  destruct (_accessKey self) as [| | |key| |] eqn:Ek; simpl in E;
    try no_request.
  exists paramsSuffix, data, prepared, pw, key.
  rewrite !str_app_assoc in E.
  apply app_inv_head in E. injection E as E.
  repeat split; try done.
  simpl. by rewrite !str_app_assoc, <- !app_assoc, E.
Qed.
End Core.
Section Signing.
Context `{libs : Collaborators}.

Lemma base_headers_Authorization self signature date data :
  base_headers self signature date data !! "Authorization"
  = Some (PyStr ("PWS " +:+ py_str (_accessKeyID self) +:+ ":" +:+ signature)).
Proof. unfold base_headers. simpl. by rewrite lookup_insert_eq. Qed.

Lemma base_headers_Date self signature date data :
  base_headers self signature date data !! "Date" = Some (PyStr date).
Proof.
  unfold base_headers. simpl.
  rewrite lookup_insert_ne by done. by rewrite lookup_insert_eq.
Qed.

Lemma base_headers_token self signature date data :
  base_headers self signature date data !! "X-PAPI-AccessToken" = None.
Proof.
  unfold base_headers. simpl. by rewrite !lookup_insert_ne, lookup_empty.
Qed.

Lemma sent_headers_other (k : string) (cond : bool) (token : pyval)
    (h : gmap string pyval) :
  k ≠ "X-PAPI-AccessToken" →
  (if cond then <["X-PAPI-AccessToken" := token]> h else h) !! k = h !! k.
Proof. intros Hk. destruct cond; [by rewrite lookup_insert_ne|done]. Qed.

Lemma password_get kwargs :
  get kwargs "accessSecret" (get kwargs "patronPassword" (PyStr ""))
  = password kwargs.
Proof.
  unfold get, password.
  destruct (kwargs !! "accessSecret"); [done|].
  by destruct (kwargs !! "patronPassword").
Qed.

Lemma HTTP_methods_upper m : m ∈ HTTP_methods → str_upper m = m.
Proof.
  unfold HTTP_methods. rewrite !elem_of_cons, elem_of_nil.
  intros [->|[->|[->|[->|[]]]]]; reflexivity.
Qed.

(** C1 (amended): the signature of every request that the core routine
    hands to the session is the HMAC-SHA1, under the signing key of the
    client, of the upper-case method, the URL of the request as the
    HTTP library prepared it from the assembled URL (root, operation
    suffix, query suffix), the value of the Date header and the
    password, put end to end; the password is the access secret of
    the call if supplied, else its patron password if supplied, else
    the empty text. *)
Theorem signature_covers_prepared_URL self protocol HTTPMethod protection
    suffixURI kwargs w req :
  HTTPMethod ∈ HTTP_methods →
  wire (_undifferentiatied self protocol HTTPMethod protection suffixURI
          kwargs w).2 = wire w ++ [req] →
  ∃ paramsSuffix data prepared,
    _dictParse self (get kwargs "params" (PyDict [])) = Ok paramsSuffix ∧
    json_dumps (get kwargs "data" (PyDict [])) = Ok data ∧
    prepare HTTPMethod
      (rootURI self protocol protection kwargs +:+ suffixURI
         +:+ paramsSuffix) data = Ok prepared ∧
    p_url req = p_url prepared ∧
    signed_over self req HTTPMethod (p_url req) (password kwargs).
Proof.
  intros Hm Hreq.
  destruct (undifferentiatied_inv _ _ _ _ _ _ _ _ Hreq)
    as (paramsSuffix & data & prepared & pw & key
        & Hp & Hd & Hprep & Hpw & Hkey & Hr & _).
  exists paramsSuffix, data, prepared. subst req.
  repeat split; try done.
  exists key, (EmailUtils.formatdate (time_src w (ticks w))), pw.
  rewrite <- password_get, (HTTP_methods_upper _ Hm). simpl.
  rewrite !sent_headers_other by done.
  by rewrite base_headers_Date, base_headers_Authorization.
Qed.

End Signing.

Lemma signature_covers_prepared_URL_witness :
  ∃ paramsSuffix data prepared,
    _dictParse Reference.client0 (get ∅ "params" (PyDict [])) = Ok paramsSuffix ∧
    json_dumps (Collaborators := Reference.libs) (get ∅ "data" (PyDict []))
    = Ok data ∧
    prepare (Collaborators := Reference.libs) "GET"
      (rootURI Reference.client0 "http" "public" ∅ +:+ "bib/a b"
         +:+ paramsSuffix) data = Ok prepared ∧
    p_url request_bib_a_b = p_url prepared ∧
    signed_over Reference.client0 request_bib_a_b "GET"
      (p_url request_bib_a_b) (password ∅).
Proof.
  apply (signature_covers_prepared_URL (libs := Reference.libs)
           Reference.client0 "http" "GET" "public" "bib/a b" ∅
           Reference.world0 request_bib_a_b).
  - constructor.
  - vm_compute. reflexivity.
Defined.

(** C1 (as stated) fails: [bibGet('a b')] signs the URL that the HTTP
    library prepared, in which the space is [%20], not the URL that the
    routine assembled. *)
Lemma assembled_URL_not_signed :
  ¬ signs_assembled_URL (libs := Reference.libs) Reference.client0
      "http" "GET" "public" "bib/a b" ∅ Reference.world0.
Proof.
  intros Hc.
  destruct (Hc request_bib_a_b) as (ps & Hps & key & date & p & Hk & Hd & Hp & Ha).
  { vm_compute. reflexivity. }
  vm_compute in Hps. injection Hps as <-.
  vm_compute in Hk. injection Hk as <-.
  vm_compute in Hd. injection Hd as <-.
  vm_compute in Hp. injection Hp as <-.
  vm_compute in Ha. discriminate Ha.
Qed.

Section QuerySuffix.

Lemma str_app_nil_r (s : string) : s +:+ "" = s.
Proof.
  induction s as [|c s IH]; [done|].
  change (String c (s +:+ "") = String c s). by rewrite IH.
Qed.

Lemma plus_for_space_chars (s acc : string) :
  foldl (fun parsed char =>
           if String.eqb char " " then parsed +:+ "+" else parsed +:+ char)
        acc ((fun c => String c "") <$> String.list_ascii_of_string s)
  = acc +:+ encode_spaces s.
Proof.
  revert acc. induction s as [|c s IH]; intros acc.
  - simpl. by rewrite str_app_nil_r.
  - simpl. destruct (Ascii.eqb c " ");
      rewrite IH, str_app_assoc; reflexivity.
Qed.

Lemma getitem_text (P : list (string * string)) k v :
  NoDup P.*1 → (k, v) ∈ P →
  getitem (prod_map id PyStr <$> P) k = Ok (PyStr v).
Proof.
  induction P as [|[k' v'] P IH]; intros Hnd Hin.
  - by apply elem_of_nil in Hin.
  - simpl in *. apply NoDup_cons in Hnd as [Hk' Hnd].
    apply elem_of_cons in Hin as [[= -> ->]|Hin].
    + by rewrite String.eqb_refl.
    + destruct (String.eqb_spec k' k) as [->|_]; [|by apply IH].
      exfalso. apply Hk'. apply list_elem_of_fmap. by exists (k, v).
Qed.

Lemma dictParse_loop (D P : list (string * string)) (acc : string) :
  NoDup D.*1 → P ⊆ D →
  foldl (fun acc paramKey =>
           parsedParams ← acc;
           keyChars ← py_iter (PyStr paramKey);
           let parsedParamKey := plus_for_space keyChars in
           value ← getitem (prod_map id PyStr <$> D) paramKey;
           valueChars ← py_iter value;
           let parsedParamValue := plus_for_space valueChars in
           Ok (parsedParams +:+ "&" +:+ parsedParamKey +:+ "="
                 +:+ parsedParamValue))
        (Ok acc) (prod_map id PyStr <$> P).*1
  = Ok (acc +:+ pairs_text P).
Proof.
  intros Hnd. revert acc. induction P as [|[k v] P IH]; intros acc Hsub.
  - simpl. by rewrite str_app_nil_r.
  - simpl.
    rewrite (getitem_text D k v Hnd) by (apply Hsub; left).
    unfold mbind at 1 2 3 4 5. unfold result_bind. simpl.
    unfold plus_for_space. rewrite !plus_for_space_chars. simpl.
    rewrite IH by (intros x Hx; apply Hsub; by right).
    f_equal. by rewrite !str_app_assoc.
Qed.

Lemma pairs_text_join (kv : string * string) (P : list (string * string)) :
  pairs_text (kv :: P)
  = "&" +:+ join "&" ((fun kv => encode_spaces kv.1 +:+ "="
                                   +:+ encode_spaces kv.2) <$> (kv :: P)).
Proof.
  revert kv. induction P as [|kv' P IH]; intros kv.
  - simpl. by rewrite str_app_nil_r.
  - change (pairs_text (kv :: kv' :: P)) with
      ("&" +:+ encode_spaces kv.1 +:+ "=" +:+ encode_spaces kv.2
         +:+ pairs_text (kv' :: P)).
    rewrite IH. simpl. by rewrite ?str_app_assoc.
Qed.

Lemma encode_spaces_get (s : string) (n : nat) :
  String.get n (encode_spaces s)
  = (fun c => if Ascii.eqb c " " then "+"%char else c) <$> String.get n s.
Proof.
  revert n. induction s as [|c s IH]; intros [|n]; simpl; done.
Qed.

(** C2: for a mapping from text keys to text values, [_dictParse]
    returns the pairs [key=value], with every space of a key or value
    replaced by a plus sign and every other character unchanged,
    joined by [&] behind a question mark, and the empty text for the
    empty mapping. *)
Theorem dictParse_query_suffix (self : PAPI) (P : list (string * string)) :
  NoDup P.*1 →
  _dictParse self (text_dict P) = Ok (query_suffix P)
  ∧ query_suffix [] = ""
  ∧ ∀ s n, String.get n (encode_spaces s)
           = (fun c => if Ascii.eqb c " " then "+"%char else c)
               <$> String.get n s.
Proof.
  intros Hnd. split; [|split; [done|apply encode_spaces_get]].
  pose proof (dictParse_loop P P "" Hnd ltac:(done)) as Hloop.
  unfold _dictParse, text_dict. cbv zeta in Hloop |- *.
  rewrite Hloop.
  destruct P as [|kv P]; [done|].
  rewrite pairs_text_join. reflexivity.
Qed.

End QuerySuffix.

Lemma dictParse_query_suffix_witness :
  _dictParse Reference.client0
    (text_dict [("start point", "civil war"); ("numterms", "10")])
  = Ok (query_suffix [("start point", "civil war"); ("numterms", "10")])
  ∧ query_suffix [] = ""
  ∧ ∀ s n, String.get n (encode_spaces s)
           = (fun c => if Ascii.eqb c " " then "+"%char else c)
               <$> String.get n s.
Proof.
  apply (dictParse_query_suffix Reference.client0
           [("start point", "civil war"); ("numterms", "10")]).
  refine (bool_decide_unpack _ _). vm_compute. exact I.
Defined.

Example query_suffix_heading :
  query_suffix [("start point", "civil war")] = "?start+point=civil+war".
Proof. reflexivity. Qed.

Section Encoding.

Lemma be_bytes_length n x : length (SHA1.be_bytes n x) = n.
Proof.
  unfold SHA1.be_bytes. by rewrite length_fmap, length_rev, length_seq.
Qed.

Lemma sha1_digest_length msg : length (SHA1.digest msg) = 20%nat.
Proof.
  unfold SHA1.digest.
  destruct (SHA1.blocks _ _ _) as [[[[a b] c] d] e].
  by rewrite !length_app, !be_bytes_length.
Qed.

Lemma hmac_digest_length key msg : length (HMAC.digest key msg) = 20%nat.
Proof. apply sha1_digest_length. Qed.

(** What the codec returns for twenty bytes: the standard text, which
    ends in one padding character, and a line feed. *)
Lemma encodestring_20 (l : list Z) :
  length l = 20%nat →
  Base64.encodestring l = Base64.encode l ++ ["010"%char]
  ∧ drop_last (Base64.encodestring l) = Base64.encode l
  ∧ last (Base64.encode l) = Some "="%char
  ∧ length (Base64.encode l) = 28%nat.
Proof.
  intros Hl.
  do 21 (destruct l as [|? l]; try discriminate Hl).
  repeat split; reflexivity.
Qed.

Lemma getPAPIHash_inv self HTTPMethod URI HTTPDate patronPassword w signature :
  (_getPAPIHash self HTTPMethod URI HTTPDate patronPassword w).1
  = Ok signature →
  ∃ key p,
    _accessKey self = PyStr key ∧ patronPassword = PyStr p ∧
    signature
    = signature_text
        (HMAC.digest (bytes_of_string key)
           (bytes_of_string (HTTPMethod +:+ URI +:+ HTTPDate +:+ p))).
Proof.
  unfold _getPAPIHash, print, lift, mbind, M_bind, mret, M_ret.
  destruct patronPassword as [| | |p| |]; simpl; try discriminate.
  destruct (_accessKey self) as [| | |key| |]; simpl; try discriminate.
  intros [= <-]. exists key, p. by rewrite !str_app_assoc.
Qed.

(** C3 (amended): the signature is the output of the base64 codec for
    the raw digest without its last character; the character removed
    is the line feed that the codec puts at the end, so that the
    signature is the complete standard base64 text of the digest:
    28 characters, the last of which is the padding character. *)
Theorem signature_is_padded_base64 self HTTPMethod URI HTTPDate
    patronPassword w signature :
  (_getPAPIHash self HTTPMethod URI HTTPDate patronPassword w).1
  = Ok signature →
  ∃ key p,
    _accessKey self = PyStr key ∧ patronPassword = PyStr p ∧
    let digest :=
      HMAC.digest (bytes_of_string key)
        (bytes_of_string (HTTPMethod +:+ URI +:+ HTTPDate +:+ p)) in
    Base64.encodestring digest = Base64.encode digest ++ ["010"%char] ∧
    signature = String.string_of_list_ascii (Base64.encode digest) ∧
    last (String.list_ascii_of_string signature) = Some "="%char ∧
    String.length signature = 28%nat.
Proof.
  intros Hs.
  destruct (getPAPIHash_inv _ _ _ _ _ _ _ Hs) as (key & p & Hk & Hp & ->).
  exists key, p. split; [done|]. split; [done|]. simpl.
  destruct (encodestring_20 _ (hmac_digest_length (bytes_of_string key)
    (bytes_of_string (HTTPMethod +:+ URI +:+ HTTPDate +:+ p))))
    as (Henc & Hdrop & Hlast & Hlen).
  unfold signature_text. rewrite Hdrop.
  rewrite String.list_ascii_of_string_of_list_ascii.
  repeat split; try done.
  rewrite <- Hlen. clear.
  induction (Base64.encode _) as [|c l IH]; simpl; [done|by rewrite IH].
Qed.

End Encoding.

Lemma signature_is_padded_base64_witness :
  ∃ key p,
    _accessKey Reference.client0 = PyStr key ∧ PyStr "" = PyStr p ∧
    let digest :=
      HMAC.digest (bytes_of_string key)
        (bytes_of_string
           ("GET" +:+ "http://papi.example.org/PAPIService/REST/public/v1/1033/100/1/bib/353063"
              +:+ "Sat, 01 Apr 2017 14:46:40 GMT" +:+ p)) in
    Base64.encodestring digest = Base64.encode digest ++ ["010"%char] ∧
    "fWABlMi8c+obMUVvh9XgKY1HNtI="
    = String.string_of_list_ascii (Base64.encode digest) ∧
    last (String.list_ascii_of_string "fWABlMi8c+obMUVvh9XgKY1HNtI=")
    = Some "="%char ∧
    String.length "fWABlMi8c+obMUVvh9XgKY1HNtI=" = 28%nat.
Proof.
  apply (signature_is_padded_base64 Reference.client0 "GET"
           "http://papi.example.org/PAPIService/REST/public/v1/1033/100/1/bib/353063"
           "Sat, 01 Apr 2017 14:46:40 GMT" (PyStr "") Reference.world0).
  vm_compute. reflexivity.
Defined.

(** C3 (as stated) fails: the signature of [bibGet('353063')] keeps the
    padding character of the standard base64 text. *)
Lemma padding_not_stripped :
  ¬ strips_padding Reference.client0 "GET"
      "http://papi.example.org/PAPIService/REST/public/v1/1033/100/1/bib/353063"
      "Sat, 01 Apr 2017 14:46:40 GMT" (PyStr "") Reference.world0.
Proof.
  intros Hc.
  destruct (Hc "fWABlMi8c+obMUVvh9XgKY1HNtI=") as (key & p & Hk & Hp & _ & Hs).
  { vm_compute. reflexivity. }
  vm_compute in Hk. injection Hk as <-. injection Hp as <-.
  vm_compute in Hs. discriminate Hs.
Qed.

Section HttpDate.
Import EmailUtils.

Lemma forall_range (P : Z → bool) (lo hi : Z) :
  forallb P ((fun i => lo + Z.of_nat i) <$> seq 0 (Z.to_nat (hi - lo))) = true →
  ∀ n, lo ≤ n < hi → P n = true.
Proof.
  intros Hall n Hn. rewrite forallb_forall in Hall. apply Hall.
  apply list_elem_of_In, list_elem_of_fmap. exists (Z.to_nat (n - lo)).
  split; [lia|]. apply elem_of_seq. lia.
Qed.

Lemma two_digits n :
  0 ≤ n < 100 → all_digits 2 (zero_padded 2 n) = true.
Proof.
  apply (forall_range (fun n => all_digits 2 (zero_padded 2 n))).
  vm_compute. reflexivity.
Qed.

Lemma four_digits n :
  1000 ≤ n < 10000 → all_digits 4 (zero_padded 4 n) = true.
Proof.
  apply (forall_range (fun n => all_digits 4 (zero_padded 4 n))).
  vm_compute. reflexivity.
Qed.

Lemma day_name n :
  0 ≤ n < 7 → a_name day_names (nth (Z.to_nat n) day_names "") = true.
Proof.
  apply (forall_range (fun n => a_name day_names (nth (Z.to_nat n) day_names ""))).
  vm_compute. reflexivity.
Qed.

Lemma month_name n :
  1 ≤ n < 13 →
  a_name month_names (nth (Z.to_nat (n - 1)) month_names "") = true.
Proof.
  apply (forall_range
           (fun n => a_name month_names (nth (Z.to_nat (n - 1)) month_names ""))).
  vm_compute. reflexivity.
Qed.

Lemma all_digits_2 s :
  all_digits 2 s = true →
  ∃ a b, s = String a (String b "") ∧ is_digit a = true ∧ is_digit b = true.
Proof.
  destruct s as [|a [|b [|c s]]]; try discriminate.
  unfold all_digits. simpl. intros Hd. exists a, b.
  destruct (is_digit a), (is_digit b); try discriminate. done.
Qed.

Lemma all_digits_4 s :
  all_digits 4 s = true →
  ∃ a b c d, s = String a (String b (String c (String d "")))
             ∧ is_digit a = true ∧ is_digit b = true
             ∧ is_digit c = true ∧ is_digit d = true.
Proof.
  destruct s as [|a [|b [|c [|d [|e s]]]]]; try discriminate.
  unfold all_digits. simpl. intros Hd. exists a, b, c, d.
  destruct (is_digit a), (is_digit b), (is_digit c), (is_digit d);
    try discriminate. done.
Qed.

Lemma a_name_inv names s :
  a_name names s = true →
  ∃ a b c, s = String a (String b (String c "")) ∧ is_name names a b c = true.
Proof.
  destruct s as [|a [|b [|c [|d s]]]]; try discriminate.
  intros Hn. by exists a, b, c.
Qed.

Lemma civil_range days :
  0 ≤ days < 2932897 →
  1970 ≤ (civil days).1.1 ≤ 9999
  ∧ 1 ≤ (civil days).1.2 ≤ 12
  ∧ 1 ≤ (civil days).2 ≤ 31.
Proof.
  intros Hdays. unfold civil. cbv zeta. simpl.
  set (z := days + 719468).
  set (era := z / 146097).
  set (doe := z - era * 146097).
  set (yoe := (doe - doe / 1460 + doe / 36524 - doe / 146096) / 365).
  set (doy := doe - (365 * yoe + yoe / 4 - yoe / 100)).
  set (mp := (5 * doy + 2) / 153).
  assert (Hera : 4 ≤ era ≤ 24)
    by (subst era z; Z.div_mod_to_equations; lia).
  assert (Hdoe : 0 ≤ doe < 146097)
    by (subst doe era; Z.div_mod_to_equations; lia).
  assert (Hyoe : 0 ≤ yoe < 400)
    by (subst yoe; clearbody doe; Z.div_mod_to_equations; lia).
  assert (Hdoy : 0 ≤ doy < 366)
    by (subst doy yoe; clearbody doe; Z.div_mod_to_equations; lia).
  assert (Hmp : 0 ≤ mp < 12)
    by (subst mp; clearbody doy; Z.div_mod_to_equations; lia).
  split; [|split].
  - destruct (Z.ltb_spec mp 10);
      [destruct (Z.leb_spec (mp + 3) 2)|destruct (Z.leb_spec (mp - 9) 2)];
      subst mp doy yoe doe era z; Z.div_mod_to_equations; lia.
  - destruct (Z.ltb_spec mp 10); lia.
  - subst mp; clearbody doy; Z.div_mod_to_equations; lia.
Qed.

(** The fields of [gmtime] between the epoch and the end of year 9999. *)
Lemma gmtime_bounds t :
  0 ≤ t < 253402300800 →
  let now := gmtime t in
  0 ≤ tm_wday now < 7 ∧ 1 ≤ tm_mday now ≤ 31 ∧ 1 ≤ tm_mon now ≤ 12
  ∧ 1970 ≤ tm_year now ≤ 9999 ∧ 0 ≤ tm_hour now < 24
  ∧ 0 ≤ tm_min now < 60 ∧ 0 ≤ tm_sec now < 60.
Proof.
  intros Ht. unfold gmtime. cbv zeta.
  assert (Hdays : 0 ≤ t / 86400 < 2932897)
    by (Z.div_mod_to_equations; lia).
  pose proof (civil_range _ Hdays) as (Hy & Hm & Hd).
  destruct (civil (t / 86400)) as [[year mon] mday]. simpl in *.
  repeat split; try lia; Z.div_mod_to_equations; lia.
Qed.

(** The text of [formatdate] in that range has the shape of an HTTP
    date. *)
Lemma formatdate_is_http_date t :
  0 ≤ t < 253402300800 → is_http_date (formatdate t) = true.
Proof.
  intros Ht. unfold formatdate. cbv zeta.
  pose proof (gmtime_bounds t Ht) as (Hw & Hd & Hm & Hy & Hh & Hmi & Hs).
  cbv zeta in Hw, Hd, Hm, Hy, Hh, Hmi, Hs.
  destruct (a_name_inv _ _ (day_name _ Hw)) as (w1 & w2 & w3 & -> & Hwn).
  destruct (a_name_inv _ _ (month_name (tm_mon (gmtime t)) ltac:(lia)))
    as (m1 & m2 & m3 & -> & Hmn).
  destruct (all_digits_2 _ (two_digits (tm_mday (gmtime t)) ltac:(lia)))
    as (d1 & d2 & -> & Hd1 & Hd2).
  destruct (all_digits_4 _ (four_digits (tm_year (gmtime t)) ltac:(lia)))
    as (y1 & y2 & y3 & y4 & -> & Hy1 & Hy2 & Hy3 & Hy4).
  destruct (all_digits_2 _ (two_digits (tm_hour (gmtime t)) ltac:(lia)))
    as (h1 & h2 & -> & Hh1 & Hh2).
  destruct (all_digits_2 _ (two_digits (tm_min (gmtime t)) ltac:(lia)))
    as (n1 & n2 & -> & Hn1 & Hn2).
  destruct (all_digits_2 _ (two_digits (tm_sec (gmtime t)) ltac:(lia)))
    as (s1 & s2 & -> & Hs1 & Hs2).
  cbv beta iota zeta
    delta [is_http_date String.append String.list_ascii_of_string].
  rewrite Hwn, Hmn, Hd1, Hd2, Hy1, Hy2, Hy3, Hy4, Hh1, Hh2, Hn1, Hn2, Hs1, Hs2.
  reflexivity.
Qed.

End HttpDate.

Section Requests.
Context `{libs : Collaborators}.

(** C4: a request that the core routine hands to the session has the
    access-token header exactly when the call came with a non-empty
    access token and the protection level is [public]; the header then
    holds that token, and a [protected] request never has it. *)
Theorem token_header_iff_public_with_token self protocol HTTPMethod
    protection suffixURI kwargs w req :
  wire (_undifferentiatied self protocol HTTPMethod protection suffixURI
          kwargs w).2 = wire w ++ [req] →
  let accessToken := get kwargs "accessToken" (PyStr "") in
  (is_Some (p_headers req !! "X-PAPI-AccessToken")
   ↔ truthy accessToken = true ∧ protection = "public")
  ∧ (truthy accessToken = true → protection = "public" →
     p_headers req !! "X-PAPI-AccessToken" = Some accessToken)
  ∧ (protection = "protected" →
     p_headers req !! "X-PAPI-AccessToken" = None).
Proof.
  intros Hreq accessToken.
  destruct (undifferentiatied_inv _ _ _ _ _ _ _ _ Hreq)
    as (paramsSuffix & data & prepared & pw & key
        & _ & _ & _ & _ & _ & Hr & _).
  cbv zeta in Hr. fold accessToken in Hr. subst req. simpl.
  destruct (String.eqb_spec protection "public") as [->|Hne];
    destruct (truthy accessToken); simpl;
    rewrite ?lookup_insert_eq, ?base_headers_token;
    repeat split; try done; try (by intros [? [=]]); try (by intros [[=] ?]);
    try (by intros [? ?]); try (by intros [=]); eauto.
Qed.

(** A call of the core routine that hands a request to the session
    has also printed two texts on standard output: the message that was
    signed, which ends in the password, and the signature. *)
Lemma signing_prints self protocol HTTPMethod protection suffixURI kwargs
    w req :
  wire (_undifferentiatied self protocol HTTPMethod protection suffixURI
          kwargs w).2 = wire w ++ [req] →
  ∃ date p signature,
    password kwargs = PyStr p ∧
    p_headers req !! "Authorization"
    = Some (PyStr ("PWS " +:+ py_str (_accessKeyID self) +:+ ":"
                     +:+ signature)) ∧
    stdout (_undifferentiatied self protocol HTTPMethod protection
              suffixURI kwargs w).2
    = stdout w ++ [HTTPMethod +:+ p_url req +:+ date +:+ p; signature].
Proof.
  intros Hreq.
  destruct (undifferentiatied_inv _ _ _ _ _ _ _ _ Hreq)
    as (paramsSuffix & data & prepared & pw & key
        & _ & _ & _ & Hpw & _ & Hr & Hrun).
  cbv zeta in Hr, Hrun. rewrite Hrun. rewrite password_get in Hpw.
  eexists _, pw, _. split; [done|]. subst req. simpl. split; [|done].
  rewrite sent_headers_other by done. apply base_headers_Authorization.
Qed.

(** C10: the Date header of a request that the core routine hands to
    the session is the text that entered the signed message as its
    date; it is [formatdate] of the reading of the clock that this call
    made, which no other call sees, and, for a time between the epoch
    and the end of year 9999, has the shape of an HTTP date in GMT. *)
Theorem date_header_is_signed_date self protocol HTTPMethod protection
    suffixURI kwargs w req :
  wire (_undifferentiatied self protocol HTTPMethod protection suffixURI
          kwargs w).2 = wire w ++ [req] →
  let now := time_src w (ticks w) in
  let date := EmailUtils.formatdate now in
  p_headers req !! "Date" = Some (PyStr date)
  ∧ (∃ p, password kwargs = PyStr p ∧
          carries_signature_of self req
            (HTTPMethod +:+ p_url req +:+ date +:+ p))
  ∧ ticks (_undifferentiatied self protocol HTTPMethod protection suffixURI
             kwargs w).2 = S (ticks w)
  ∧ (0 ≤ now < 253402300800 → is_http_date date = true).
Proof.
  intros Hreq now date.
  destruct (undifferentiatied_inv _ _ _ _ _ _ _ _ Hreq)
    as (paramsSuffix & data & prepared & pw & key
        & _ & _ & _ & Hpw & Hkey & Hr & Hrun).
  cbv zeta in Hr, Hrun. fold now in Hr, Hrun. fold date in Hr, Hrun.
  rewrite Hrun. rewrite password_get in Hpw. subst req. simpl.
  rewrite !sent_headers_other by done.
  split; [apply base_headers_Date|]. split; [|split; [done|]].
  - exists pw. split; [done|]. exists key. split; [done|]. simpl.
    rewrite sent_headers_other by done. apply base_headers_Authorization.
  - apply formatdate_is_http_date.
Qed.

End Requests.

Lemma token_header_iff_public_with_token_witness :
  let accessToken :=
    get ({["accessToken" := PyStr "tok"]} : gmap string pyval)
      "accessToken" (PyStr "") in
  (is_Some (p_headers request_bib_with_token !! "X-PAPI-AccessToken")
   ↔ truthy accessToken = true ∧ "public" = "public")
  ∧ (truthy accessToken = true → "public" = "public" →
     p_headers request_bib_with_token !! "X-PAPI-AccessToken"
     = Some accessToken)
  ∧ ("public" = "protected" →
     p_headers request_bib_with_token !! "X-PAPI-AccessToken" = None).
Proof.
  apply (token_header_iff_public_with_token (libs := Reference.libs)
           Reference.client0 "http" "GET" "public" "bib/353063"
           {["accessToken" := PyStr "tok"]} Reference.world0
           request_bib_with_token).
  vm_compute. reflexivity.
Defined.

Lemma date_header_is_signed_date_witness :
  let now := time_src Reference.world0 (ticks Reference.world0) in
  let date := EmailUtils.formatdate now in
  p_headers request_bib_a_b !! "Date" = Some (PyStr date)
  ∧ (∃ p, password ∅ = PyStr p ∧
          carries_signature_of Reference.client0 request_bib_a_b
            ("GET" +:+ p_url request_bib_a_b +:+ date +:+ p))
  ∧ ticks (_undifferentiatied (libs := Reference.libs) Reference.client0
             "http" "GET" "public" "bib/a b" ∅ Reference.world0).2
    = S (ticks Reference.world0)
  ∧ (0 ≤ now < 253402300800 → is_http_date date = true).
Proof.
  apply (date_header_is_signed_date (libs := Reference.libs)
           Reference.client0 "http" "GET" "public" "bib/a b" ∅
           Reference.world0 request_bib_a_b).
  vm_compute. reflexivity.
Defined.

(** C9 (the defect): [patronBasicDataGet('B1', 'P1')] prints the signed
    message, which ends in the patron password, and the signature on
    standard output. *)
Theorem patronBasicDataGet_prints_password_and_signature :
  stdout (patronBasicDataGet (libs := Reference.libs) Reference.client0
            [PyStr "B1"; PyStr "P1"] ∅ Reference.world0).2
  = ["GEThttp://papi.example.org/PAPIService/REST/public/v1/1033/100/1/patron/B1/basicdataSat, 01 Apr 2017 14:46:40 GMTP1";
     "i2QEcg4Ixo0NqglDDGN28I6M4qA="].
Proof. vm_compute. reflexivity. Qed.

(** C5 (the defect): the URL of the [protected] operation
    [notificationUpdate] has the scheme [http]. *)
Theorem notificationUpdate_uses_plain_http :
  p_url <$> wire (notificationUpdate (libs := Reference.libs) Reference.client0
                    [PyStr "tok"; PyStr "secret"; PyStr "3"; PyStr "3";
                     PyStr "2"; PyStr "1"; PyStr "1";
                     PyStr "/Date(1391058000000-0500)/"; PyStr "3";
                     PyStr "4237570576"; PyStr "121175"; PyStr "1033"]
                    ∅ Reference.world0).2
  = ["http://papi.example.org/PAPIService/REST/protected/v1/1033/100/1/tok/notification/3"].
Proof. vm_compute. reflexivity. Qed.

(** The other [protected] operations use [https]. *)
Example protected_siblings_use_https :
  (fun r => String.prefix "https://" (p_url r)) <$> wire
    ((r1 ← authenticateStaffUser (libs := Reference.libs) Reference.client0
            [PyStr "domain"; PyStr "user"; PyStr "pass"] ∅;
      r2 ← patronAccountPay (libs := Reference.libs) Reference.client0
            [PyStr "tok"; PyStr "secret"; PyStr "B1"; PyStr "1170113";
             PyStr "0"; PyStr "11"; PyStr "1"; PyStr "2"] ∅;
      r3 ← createPatronBlocks (libs := Reference.libs) Reference.client0
            [PyStr "tok"; PyStr "secret"; PyStr "B1"; PyStr "1";
             PyStr "hello world"] ∅;
      r4 ← patronRenewBlocksGet (libs := Reference.libs) Reference.client0
            [PyStr "tok"; PyStr "secret"; PyStr "121175"] ∅;
      r5 ← patronSearch (libs := Reference.libs) Reference.client0
            [PyStr "tok"; PyStr "secret"; PyDict [("q", PyStr "PATNL=Bar")]] ∅;
      r6 ← synchItemsByBibIDGet (libs := Reference.libs) Reference.client0
            [PyStr "tok"; PyStr "secret"; PyStr "353063"] ∅;
      synchTasksCheckout (libs := Reference.libs) Reference.client0
        [PyStr "tok"; PyStr "secret"; PyStr "1"; PyStr "2"; PyStr "james";
         PyStr "12345"; PyStr "r1"; PyStr "B1"; PyStr "1491058";
         PyStr "1491058"] ∅) Reference.world0).2
  = [true; true; true; true; true; true; true].
Proof. vm_compute. reflexivity. Qed.

Section Calls.
Context `{libs : Collaborators}.

Lemma bind_args_raises names args kwargs e :
  bind_args names args kwargs = Raise e → e = TypeError.
Proof.
  revert args kwargs.
  induction names as [|n names IH]; intros [|a args] kwargs; simpl.
  - discriminate.
  - by intros [= <-].
  - destruct (kwargs !! n); [|by intros [= <-]].
    destruct (bind_args names [] (delete n kwargs)) as [[vs kw]|e'] eqn:E;
      simpl; [discriminate|].
    intros [= <-]. by eapply IH.
  - destruct (kwargs !! n); [by intros [= <-]|].
    destruct (bind_args names args kwargs) as [[vs kw]|e'] eqn:E;
      simpl; [discriminate|].
    intros [= <-]. by eapply IH.
Qed.

Lemma bind_args_too_many names args kwargs :
  (length names < length args)%nat →
  bind_args names args kwargs = Raise TypeError.
Proof.
  revert args. induction names as [|n names IH]; intros [|a args] Hlen;
    simpl in *; try lia; [done|].
  destruct (kwargs !! n); [done|].
  by rewrite IH by lia.
Qed.

Lemma method_args_raises names args kwargs e :
  method_args names args kwargs = Raise e → e = TypeError.
Proof.
  unfold method_args.
  destruct (bind_args _ _ _) as [[vs kw]|e'] eqn:E; simpl; [discriminate|].
  intros [= <-]. by eapply bind_args_raises.
Qed.

Lemma method_args_too_many names args kwargs :
  (length names < length args)%nat →
  method_args names args kwargs = Raise TypeError.
Proof.
  intros Hlen. unfold method_args.
  rewrite bind_args_too_many; [done|simpl; lia].
Qed.

Lemma bind_args_positional names args kwargs :
  length args = length names →
  bind_args names args kwargs
  = if existsb (fun n => bool_decide (is_Some (kwargs !! n))) names
    then Raise TypeError else Ok (args, kwargs).
Proof.
  revert args. induction names as [|n names IH]; intros [|a args] Hlen;
    simpl in *; try done.
  destruct (kwargs !! n) as [v|] eqn:En.
  - by rewrite bool_decide_eq_true_2.
  - rewrite bool_decide_eq_false_2 by (by intros [? ?]). simpl.
    rewrite IH by lia. by destruct (existsb _ names).
Qed.

Lemma method_args_positional names args kwargs :
  length args = length names →
  method_args names args kwargs
  = if existsb (fun n => bool_decide (is_Some (kwargs !! n)))
         ("self" :: names)
    then Raise TypeError else Ok (args, kwargs).
Proof.
  intros Hlen. unfold method_args.
  rewrite bind_args_positional by (simpl; lia).
  by destruct (existsb _ _).
Qed.

(** C6: cancelling all hold requests of a patron does what cancelling
    the hold request [0] of that patron does with the same bar code,
    password, workstation and user: the same outcome, the same
    request handed to the session, the same world afterwards, whether
    [0] is the number or the text. *)
Theorem cancel_all_is_cancel_of_0 self patronBarcode patronPassword
    workstationID userID kwargs w :
  holdRequestCancelAllForPatron self
    [patronBarcode; patronPassword; workstationID; userID] kwargs w
  = holdRequestCancel self
      [patronBarcode; patronPassword; PyInt 0; workstationID; userID]
      kwargs w
  ∧ holdRequestCancelAllForPatron self
      [patronBarcode; patronPassword; workstationID; userID] kwargs w
    = holdRequestCancel self
        [patronBarcode; patronPassword; PyStr "0"; workstationID; userID]
        kwargs w.
Proof.
  destruct (bool_decide (is_Some (kwargs !! "self"))) eqn:E1,
    (bool_decide (is_Some (kwargs !! "patronBarcode"))) eqn:E2,
    (bool_decide (is_Some (kwargs !! "patronPassword"))) eqn:E3,
    (bool_decide (is_Some (kwargs !! "requestID"))) eqn:E4,
    (bool_decide (is_Some (kwargs !! "workstationID"))) eqn:E5,
    (bool_decide (is_Some (kwargs !! "userID"))) eqn:E6;
    unfold holdRequestCancelAllForPatron, holdRequestCancel, lift, mbind,
      M_bind;
    repeat (rewrite ?method_args_positional by done; simpl;
            rewrite ?E1, ?E2, ?E3, ?E4, ?E5, ?E6; simpl);
    done.
Qed.

(** C7 (the defect): renewing all items of a patron raises a
    [TypeError] on every call, before anything is printed or sent: it
    passes the client twice to [itemRenew]. *)
Theorem renew_all_raises self args kwargs w :
  itemRenewAllForPatron self args kwargs w = (Raise TypeError, w).
Proof.
  unfold itemRenewAllForPatron, lift, mbind, M_bind.
  destruct (method_args _ args kwargs) as [[vals kw]|e] eqn:E.
  - do 7 (destruct vals as [|? vals]; try done).
    unfold itemRenew, lift, mbind, M_bind.
    rewrite method_args_too_many; [done|simpl; lia].
  - by rewrite (method_args_raises _ _ _ _ E).
Qed.

Lemma call_undifferentiatied_inv self protocol HTTPMethod protection
    suffixURI explicit kwargs w req :
  wire (call_undifferentiatied self protocol HTTPMethod protection
          suffixURI explicit kwargs w).2 = wire w ++ [req] →
  ∃ keywords,
    wire (_undifferentiatied self protocol HTTPMethod protection suffixURI
            keywords w).2 = wire w ++ [req].
Proof.
  unfold call_undifferentiatied, lift, mbind, M_bind.
  destruct (merge_keywords explicit kwargs) as [keywords|]; [|intros; no_request].
  destruct (method_args _ _ keywords) as [[vals keywords']|];
    [|intros; no_request].
  intros Hreq. by exists keywords'.
Qed.

(** Whatever its arguments and the libraries, the URL that
    [notificationUpdate] gives to the HTTP library starts with
    [http://] and goes on with the host. *)
Lemma notificationUpdate_scheme self args kwargs w req :
  wire (notificationUpdate self args kwargs w).2 = wire w ++ [req] →
  ∃ rest data prepared,
    prepare "PUT" ("http://" +:+ py_str (_hostname self)
                     +:+ "/PAPIService/REST/protected/" +:+ rest) data
    = Ok prepared
    ∧ p_url req = p_url prepared.
Proof.
  unfold notificationUpdate, lift, mbind, M_bind.
  destruct (method_args _ args kwargs) as [[vals kw]|]; [|intros; no_request].
  do 13 (destruct vals as [|? vals]; try (intros; no_request)).
  intros Hreq.
  destruct (call_undifferentiatied_inv _ _ _ _ _ _ _ _ _ Hreq)
    as [keywords Hcore].
  destruct (undifferentiatied_inv _ _ _ _ _ _ _ _ Hcore)
    as (paramsSuffix & data & prepared & pw & key
        & _ & _ & Hprep & _ & _ & Hr & _).
  cbv zeta in Hr. unfold rootURI in Hprep. cbv zeta in Hprep.
  rewrite !str_app_assoc in Hprep.
  eexists _, data, prepared. split; [exact Hprep|]. by subst req.
Qed.

(** C8 (amended): a constructor call that does not supply exactly the
    key, the key identifier and the host raises a [TypeError] at once
    and leaves the world as it was, nothing signed or sent; the three
    values of a call that supplies them are stored as they are, with
    no check. *)
Theorem constructor_checks_number_of_arguments (args : list pyval)
    (w : world) :
  length args ≠ 3%nat →
  __init__ args w = (Raise TypeError, w)
  ∧ ∀ accessKey accessKeyID hostname w',
      __init__ [accessKey; accessKeyID; hostname] w'
      = (Ok {| _accessKey := accessKey; _accessKeyID := accessKeyID;
               _hostname := hostname |}, w').
Proof.
  intros Hlen. split; [|done].
  by do 4 (destruct args as [|? args]; try done).
Qed.

End Calls.

Lemma constructor_checks_number_of_arguments_witness :
  __init__ [PyStr "0123456789abcdef"; PyStr "apiuser"] Reference.world0
  = (Raise TypeError, Reference.world0)
  ∧ ∀ accessKey accessKeyID hostname w',
      __init__ [accessKey; accessKeyID; hostname] w'
      = (Ok {| _accessKey := accessKey; _accessKeyID := accessKeyID;
               _hostname := hostname |}, w').
Proof.
  apply (constructor_checks_number_of_arguments
           [PyStr "0123456789abcdef"; PyStr "apiuser"] Reference.world0).
  simpl. lia.
Defined.

(** C8 (as stated) fails: a client is constructed with [None] for the
    host. *)
Lemma absent_host_accepted :
  ¬ rejects_absent [PyStr "0123456789abcdef"; PyStr "apiuser"; PyNone]
      Reference.world0.
Proof.
  intros Hc. destruct Hc as [e He].
  - right. exists PyNone. split; [|by left].
    do 2 right. left.
  - discriminate He.
Qed.

(** [itemRenew] with item [0] does build a request. *)
Example itemRenew_of_0_sends :
  p_url <$> wire (itemRenew (libs := Reference.libs) Reference.client0
                    [PyStr "B1"; PyStr "P1"; PyInt 0; PyStr "3"; PyStr "2";
                     PyStr "1"; PyStr "true"] ∅ Reference.world0).2
  = ["http://papi.example.org/PAPIService/REST/public/v1/1033/100/1/patron/B1/itemsout/0"].
Proof. vm_compute. reflexivity. Qed.


(** ** The core routine: when it sends and what it leaves behind *)

Ltac unfold_core :=
  unfold _undifferentiatied, _getPAPIHash, formatdate_now, time, print,
    session_send, lift, mbind, M_bind, mret, M_ret.

Section CoreOutcomes.
Context `{libs : Collaborators}.

(** The ways a call of the core routine can end: before anything
    happened, after the reading of the clock, after the message was
    printed, or with the request sent. *)
Lemma undifferentiatied_cases self protocol HTTPMethod protection suffixURI
    kwargs w :
  let run := _undifferentiatied self protocol HTTPMethod protection
               suffixURI kwargs w in
  (∃ e, run = (Raise e, w))
  ∨ (run.1 = Raise TypeError ∧ advanced w run.2 1 [] []
     ∧ is_text (password kwargs) = false)
  ∨ (∃ message, run.1 = Raise TypeError ∧ advanced w run.2 1 [message] []
                ∧ is_text (_accessKey self) = false)
  ∨ (∃ message signature req,
       run.1 = transport req
       ∧ advanced w run.2 1 [message; signature] [req]).
Proof.
  intros run. subst run. unfold_core. rewrite password_get.
  destruct (_dictParse _ _) as [paramsSuffix|e]; [|left; by exists e].
  destruct (json_dumps _) as [data|e]; [|left; by exists e].
  destruct (prepare _ _ _) as [prepared|e]; [|left; by exists e].
  right.
  destruct (is_text (password kwargs)) eqn:Epw.
  - right. destruct (password kwargs) as [| | |pw| |]; try discriminate Epw.
    simpl. destruct (is_text (_accessKey self)) eqn:Ek.
    + right. destruct (_accessKey self) as [| | |key| |];
        try discriminate Ek.
      simpl. eexists _, _, _. split; [done|].
      repeat split; simpl; [lia|by rewrite <- app_assoc].
    + left. eexists.
      destruct (_accessKey self) as [| | |key| |]; try discriminate Ek;
        simpl; (split; [done|]); repeat split; simpl;
        rewrite ?app_nil_r; try done; lia.
  - left.
    destruct (password kwargs) as [| | |pw| |]; try discriminate Epw;
      simpl; (split; [done|]); repeat split; simpl;
      rewrite ?app_nil_r; try done; lia.
Qed.



Lemma undifferentiatied_advanced self protocol HTTPMethod protection
    suffixURI kwargs w :
  ∃ dt out reqs,
    advanced w (_undifferentiatied self protocol HTTPMethod protection
                  suffixURI kwargs w).2 dt out reqs
    ∧ (dt ≤ 1)%nat ∧ (length out ≤ 2)%nat ∧ (length reqs ≤ 1)%nat
    ∧ (reqs ≠ [] → dt = 1%nat ∧ length out = 2%nat).
Proof.
  destruct (undifferentiatied_cases self protocol HTTPMethod protection
              suffixURI kwargs w)
    as [[e He]|[(_ & Ha & _)|[(m & _ & Ha & _)|(m & s & req & _ & Ha)]]].
  - rewrite He. exists 0%nat, [], []. simpl.
    repeat split; rewrite ?app_nil_r; try done; lia.
  - exists 1%nat, [], []. repeat split; simpl; try apply Ha; try done; lia.
  - exists 1%nat, [m], []. repeat split; simpl; try apply Ha; try done; lia.
  - exists 1%nat, [m; s], [req]. repeat split; simpl; try apply Ha; done.
Qed.

(** X2 (core routine): a call never changes the clock source, reads the
    clock at most once, prints at most two texts and hands at most one
    request to the session; it keeps what was printed and sent before,
    and a request is sent only after the reading and both prints. *)
Theorem core_world_grows self protocol HTTPMethod protection suffixURI
    kwargs w :
  ∃ dt out reqs,
    advanced w (_undifferentiatied self protocol HTTPMethod protection
                  suffixURI kwargs w).2 dt out reqs
    ∧ (dt ≤ 1)%nat ∧ (length out ≤ 2)%nat ∧ (length reqs ≤ 1)%nat
    ∧ (reqs ≠ [] → dt = 1%nat ∧ length out = 2%nat).
Proof. apply undifferentiatied_advanced. Qed.

(** X3 (core routine): an exception of the parameter encoder, of
    [json.dumps] or of the preparation of the request is the outcome
    of the call as it is, and then nothing was read, printed or
    sent. *)
Theorem core_early_failure self protocol HTTPMethod protection suffixURI
    kwargs w e :
  _dictParse self (get kwargs "params" (PyDict [])) = Raise e
  ∨ (∃ paramsSuffix,
       _dictParse self (get kwargs "params" (PyDict [])) = Ok paramsSuffix
       ∧ (json_dumps (get kwargs "data" (PyDict [])) = Raise e
          ∨ ∃ data,
              json_dumps (get kwargs "data" (PyDict [])) = Ok data
              ∧ prepare HTTPMethod
                  (rootURI self protocol protection kwargs +:+ suffixURI
                     +:+ paramsSuffix) data = Raise e)) →
  _undifferentiatied self protocol HTTPMethod protection suffixURI kwargs w
  = (Raise e, w).
Proof.
  unfold_core.
  intros [Hp|(paramsSuffix & Hp & [Hd|(data & Hd & Hprep)])];
    rewrite Hp; try done; rewrite Hd; try done. by rewrite Hprep.
Qed.

(** X4 (core routine): the outcome of a call that handed a request to
    the session is what the transport gave for that request, a response
    or an exception. *)
Theorem core_returns_transport_outcome self protocol HTTPMethod protection
    suffixURI kwargs w req :
  wire (_undifferentiatied self protocol HTTPMethod protection suffixURI
          kwargs w).2 = wire w ++ [req] →
  (_undifferentiatied self protocol HTTPMethod protection suffixURI
     kwargs w).1 = transport req.
Proof.
  intros Hreq.
  destruct (undifferentiatied_inv _ _ _ _ _ _ _ _ Hreq)
    as (? & ? & ? & ? & ? & _ & _ & _ & _ & _ & _ & Hrun).
  cbv zeta in Hrun. by rewrite Hrun.
Qed.

(** X5 (core routine): the headers of a request are the five that the
    routine sets, and the token header at most: the content type and
    the accepted type are [application/json], the content length is the
    length of the serialized data, and no header that the HTTP library
    prepared is left. *)
Theorem core_headers self protocol HTTPMethod protection suffixURI kwargs
    w req :
  wire (_undifferentiatied self protocol HTTPMethod protection suffixURI
          kwargs w).2 = wire w ++ [req] →
  p_headers req !! "Content-Type" = Some (PyStr "application/json")
  ∧ p_headers req !! "Accept" = Some (PyStr "application/json")
  ∧ (∃ data,
       json_dumps (get kwargs "data" (PyDict [])) = Ok data
       ∧ p_headers req !! "Content-Length"
         = Some (PyInt (Z.of_nat (String.length data))))
  ∧ ∀ name, is_Some (p_headers req !! name) → name ∈ header_names.
Proof.
  intros Hreq.
  destruct (undifferentiatied_inv _ _ _ _ _ _ _ _ Hreq)
    as (paramsSuffix & data & prepared & pw & key
        & _ & Hd & _ & _ & _ & Hr & _).
  cbv zeta in Hr. subst req. simpl.
  rewrite !sent_headers_other by done.
  split; [|split; [|split]].
  - unfold base_headers. simpl.
    do 2 (rewrite lookup_insert_ne by done). by rewrite lookup_insert_eq.
  - unfold base_headers. simpl.
    do 4 (rewrite lookup_insert_ne by done). by rewrite lookup_insert_eq.
  - exists data. split; [done|]. unfold base_headers. simpl.
    do 3 (rewrite lookup_insert_ne by done). by rewrite lookup_insert_eq.
  - intros name Hname. unfold header_names.
    destruct (decide (name = "X-PAPI-AccessToken")) as [->|Hne];
      [set_solver|].
    rewrite sent_headers_other in Hname by done.
    unfold base_headers in Hname. simpl in Hname.
    repeat (rewrite lookup_insert in Hname;
            destruct (decide (_ = name)) as [<-|?]; [set_solver|]).
    rewrite lookup_empty in Hname. by destruct Hname.
Qed.

Lemma get_agree (kw1 kw2 : gmap string pyval) k d :
  kw1 !! k = kw2 !! k → get kw1 k d = get kw2 k d.
Proof. unfold get. by intros ->. Qed.

(** X6 (core routine): keywords other than the nine that the routine
    reads change nothing: two calls whose keywords agree on these nine
    do the same. *)
Theorem core_ignores_other_keywords self protocol HTTPMethod protection
    suffixURI (kwargs1 kwargs2 : gmap string pyval) w :
  (∀ k, k ∈ core_keywords → kwargs1 !! k = kwargs2 !! k) →
  _undifferentiatied self protocol HTTPMethod protection suffixURI kwargs1 w
  = _undifferentiatied self protocol HTTPMethod protection suffixURI
      kwargs2 w.
Proof.
  intros Hk. unfold _undifferentiatied, rootURI.
  assert (Hget : ∀ k d, k ∈ core_keywords → get kwargs1 k d = get kwargs2 k d)
    by (intros; apply get_agree; auto).
  rewrite !(Hget "version"), !(Hget "langID"), !(Hget "appID"),
    !(Hget "orgID"), !(Hget "params"), !(Hget "data"),
    !(Hget "accessSecret"), !(Hget "patronPassword"),
    !(Hget "accessToken") by (unfold core_keywords; set_solver).
  reflexivity.
Qed.

End CoreOutcomes.

Section CoreSigning.
Context `{libs : Collaborators}.


(** X8 (core routine): when the signing key of the client is not a byte
    string and the password is one, a call that got as far as signing
    raises a [TypeError] and sends nothing, but it has printed the
    message to sign, which ends in the password. *)
Theorem core_non_text_key self protocol HTTPMethod protection suffixURI
    kwargs w paramsSuffix data prepared pw :
  _dictParse self (get kwargs "params" (PyDict [])) = Ok paramsSuffix →
  json_dumps (get kwargs "data" (PyDict [])) = Ok data →
  prepare HTTPMethod
    (rootURI self protocol protection kwargs +:+ suffixURI +:+ paramsSuffix)
    data = Ok prepared →
  password kwargs = PyStr pw →
  is_text (_accessKey self) = false →
  (_undifferentiatied self protocol HTTPMethod protection suffixURI
     kwargs w).1 = Raise TypeError
  ∧ advanced w (_undifferentiatied self protocol HTTPMethod protection
                  suffixURI kwargs w).2 1
      [HTTPMethod +:+ p_url prepared
         +:+ EmailUtils.formatdate (time_src w (ticks w)) +:+ pw] [].
Proof.
  intros Hp Hd Hprep Hpw Hk. unfold_core.
  rewrite password_get, Hp, Hd, Hprep, Hpw. simpl.
  rewrite !str_app_assoc.
  destruct (_accessKey self) as [| | |key| |]; try discriminate Hk;
    simpl; repeat split; simpl; rewrite ?app_nil_r; try done; lia.
Qed.

Lemma sent_date self protocol HTTPMethod protection suffixURI kwargs w req :
  wire (_undifferentiatied self protocol HTTPMethod protection suffixURI
          kwargs w).2 = wire w ++ [req] →
  p_headers req !! "Date"
  = Some (PyStr (EmailUtils.formatdate (time_src w (ticks w)))).
Proof.
  intros Hreq.
  destruct (undifferentiatied_inv _ _ _ _ _ _ _ _ Hreq)
    as (? & ? & ? & ? & ? & _ & _ & _ & _ & _ & Hr & _).
  cbv zeta in Hr. subst req. simpl.
  rewrite sent_headers_other by done. apply base_headers_Date.
Qed.

(** X9 (core routine): of two calls made one after the other that both
    hand a request to the session, the first carries the date of one
    reading of the clock and the second the date of the next reading:
    no date is kept from one request to the next. *)
Theorem two_requests_two_readings self
    protocol1 HTTPMethod1 protection1 suffixURI1 kwargs1
    protocol2 HTTPMethod2 protection2 suffixURI2 kwargs2 w req1 req2 :
  wire ((_ ← _undifferentiatied self protocol1 HTTPMethod1 protection1
               suffixURI1 kwargs1;
         _undifferentiatied self protocol2 HTTPMethod2 protection2
           suffixURI2 kwargs2) w).2 = wire w ++ [req1; req2] →
  p_headers req1 !! "Date"
  = Some (PyStr (EmailUtils.formatdate (time_src w (ticks w))))
  ∧ p_headers req2 !! "Date"
    = Some (PyStr (EmailUtils.formatdate (time_src w (S (ticks w))))).
Proof.
  unfold mbind at 1. unfold M_bind at 1.
  destruct (undifferentiatied_advanced self protocol1 HTTPMethod1 protection1
              suffixURI1 kwargs1 w)
    as (dt1 & out1 & reqs1 & (Hsrc1 & Ht1 & _ & Hw1) & _ & _ & Hl1 & Hsent1).
  destruct (_undifferentiatied self protocol1 HTTPMethod1 protection1
              suffixURI1 kwargs1 w) as [[r1|e1] w1] eqn:E1; simpl in *.
  - destruct (undifferentiatied_advanced self protocol2 HTTPMethod2 protection2
                suffixURI2 kwargs2 w1)
      as (dt2 & out2 & reqs2 & (_ & _ & _ & Hw2) & _ & _ & Hl2 & _).
    intros Hreq. rewrite Hw2, Hw1, <- app_assoc in Hreq.
    apply app_inv_head in Hreq.
    destruct reqs1 as [|x [|? ?]]; simpl in *; try lia;
      destruct reqs2 as [|y [|? ?]]; simpl in *; try lia;
      try discriminate Hreq.
    injection Hreq as -> ->.
    destruct (Hsent1 ltac:(done)) as [-> _].
    split.
    + apply (sent_date self protocol1 HTTPMethod1 protection1 suffixURI1
               kwargs1 w). by rewrite E1.
    + pose proof (sent_date self protocol2 HTTPMethod2 protection2
                    suffixURI2 kwargs2 w1 req2 Hw2) as Hd2.
      rewrite Hd2, Hsrc1, Ht1.
      by replace (ticks w + 1)%nat with (S (ticks w)) by lia.
  - intros Hreq. rewrite Hw1 in Hreq. apply app_inv_head in Hreq.
    destruct reqs1 as [|x [|? ?]]; simpl in *; try lia; discriminate Hreq.
Qed.

End CoreSigning.

(** ** The parameter encoder *)

Section Encoder.

Lemma dictParse_text_dict (self : PAPI) (P : list (string * string)) :
  NoDup P.*1 → _dictParse self (text_dict P) = Ok (query_suffix P).
Proof.
  intros Hnd.
  pose proof (dictParse_loop P P "" Hnd ltac:(done)) as Hloop.
  unfold _dictParse, text_dict. cbv zeta in Hloop |- *.
  rewrite Hloop.
  destruct P as [|kv P]; [done|].
  rewrite pairs_text_join. reflexivity.
Qed.

Lemma has_char_cons c x (s : string) :
  has_char c (String x s) = Ascii.eqb c x || has_char c s.
Proof. reflexivity. Qed.

Lemma encode_spaces_cons c (s : string) :
  encode_spaces (String c s)
  = String (if Ascii.eqb c " " then "+"%char else c) (encode_spaces s).
Proof. reflexivity. Qed.

Lemma has_char_app c (a b : string) :
  has_char c (a +:+ b) = has_char c a || has_char c b.
Proof.
  induction a as [|x a IH]; [done|].
  change (String x a +:+ b) with (String x (a +:+ b)).
  rewrite !has_char_cons, IH. by destruct (Ascii.eqb c x).
Qed.

Lemma no_space_app (a b : string) :
  no_space (a +:+ b) = no_space a && no_space b.
Proof.
  unfold no_space. rewrite has_char_app.
  by destruct (has_char _ a), (has_char _ b).
Qed.

Lemma encode_spaces_no_space s : no_space (encode_spaces s) = true.
Proof.
  unfold no_space. induction s as [|c s IH]; [done|].
  rewrite encode_spaces_cons, has_char_cons.
  destruct (Ascii.eqb_spec c " ") as [->|Hc].
  - exact IH.
  - destruct (Ascii.eqb_spec " " c) as [<-|_]; [done|exact IH].
Qed.

Lemma encode_spaces_id s : no_space s = true → encode_spaces s = s.
Proof.
  unfold no_space. induction s as [|c s IH]; [done|].
  rewrite encode_spaces_cons, has_char_cons.
  destruct (Ascii.eqb_spec " " c) as [<-|Hc]; [done|].
  intros Hs. destruct (Ascii.eqb_spec c " ") as [->|_]; [done|].
  by rewrite IH.
Qed.

Lemma encode_spaces_app (a b : string) :
  encode_spaces (a +:+ b) = encode_spaces a +:+ encode_spaces b.
Proof.
  induction a as [|x a IH]; [done|].
  change (String x a +:+ b) with (String x (a +:+ b)).
  rewrite !encode_spaces_cons, IH. reflexivity.
Qed.

Lemma join_no_space (l : list string) :
  Forall (fun s => no_space s = true) l → no_space (join "&" l) = true.
Proof.
  induction 1 as [|s l Hs Hl IH]; [done|].
  destruct l as [|s' l]; [done|].
  change (join "&" (s :: s' :: l)) with (s +:+ "&" +:+ join "&" (s' :: l)).
  by rewrite !no_space_app, Hs, IH.
Qed.

(** X10 (parameter encoder): the query suffix of a mapping from text
    to text never has a space in it. *)
Theorem dictParse_no_space (self : PAPI) (P : list (string * string)) :
  NoDup P.*1 →
  ∃ suffix, _dictParse self (text_dict P) = Ok suffix
            ∧ no_space suffix = true.
Proof.
  intros Hnd. exists (query_suffix P).
  split; [by apply dictParse_text_dict|].
  destruct P as [|kv P]; [done|].
  unfold query_suffix. rewrite no_space_app.
  apply andb_true_intro. split; [reflexivity|].
  apply join_no_space, Forall_fmap, Forall_forall. intros [k v] _.
  unfold compose. cbn [fst snd].
  by rewrite !no_space_app, !encode_spaces_no_space.
Qed.

(** X11 (parameter encoder): keys and values without a space go into
    the query suffix as they are; nothing else is encoded. *)
Theorem dictParse_verbatim (self : PAPI) (P : list (string * string)) :
  NoDup P.*1 →
  Forall (fun kv => no_space kv.1 = true ∧ no_space kv.2 = true) P →
  _dictParse self (text_dict P)
  = Ok match P with
       | [] => ""
       | _ => "?" +:+ join "&" ((fun kv => kv.1 +:+ "=" +:+ kv.2) <$> P)
       end.
Proof.
  intros Hnd Hns. rewrite dictParse_text_dict by done.
  destruct P as [|kv P]; [done|].
  unfold query_suffix. do 3 f_equal.
  apply Forall_fmap_ext_1. eapply Forall_impl; [exact Hns|].
  intros [k v] [Hk Hv]. simpl in *. by rewrite !encode_spaces_id.
Qed.

(** X12 (parameter encoder): the separators are not encoded either: a
    value that holds [&] and [=] gives the query suffix of two
    parameters. *)
Theorem dictParse_separators_pass (self : PAPI) (k1 v1 k2 v2 : string) :
  k1 ≠ k2 →
  _dictParse self (text_dict [(k1, v1 +:+ "&" +:+ k2 +:+ "=" +:+ v2)])
  = _dictParse self (text_dict [(k1, v1); (k2, v2)]).
Proof.
  intros Hk.
  rewrite (dictParse_text_dict self [(k1, v1); (k2, v2)])
    by (apply NoDup_cons; split;
        [by rewrite list_elem_of_singleton|apply NoDup_singleton]).
  rewrite dictParse_text_dict by apply NoDup_singleton.
  unfold query_suffix. cbn [fmap list_fmap join fst snd].
  rewrite !encode_spaces_app, !str_app_assoc. reflexivity.
Qed.

Lemma getitem_elem (d : list (string * pyval)) k v :
  NoDup d.*1 → (k, v) ∈ d → getitem d k = Ok v.
Proof.
  induction d as [|[k' v'] d IH]; intros Hnd Hin.
  - by apply elem_of_nil in Hin.
  - simpl in *. apply NoDup_cons in Hnd as [Hk' Hnd].
    apply elem_of_cons in Hin as [[= -> ->]|Hin].
    + by rewrite String.eqb_refl.
    + destruct (String.eqb_spec k' k) as [->|_]; [|by apply IH].
      exfalso. apply Hk'. apply list_elem_of_fmap. by exists (k, v).
Qed.

Lemma step_type_error d (l : list (string * pyval)) acc k v :
  NoDup d.*1 → l ⊆ d → (k, v) ∈ l → iterable v = false →
  (acc = Raise TypeError ∨ ∃ s, acc = Ok s) →
  foldl (dictParse_step d) acc l.*1 = Raise TypeError.
Proof.
  intros Hnd. revert acc.
  induction l as [|[k' v'] l IH]; intros acc Hsub Hin Hv Hacc.
  - by apply elem_of_nil in Hin.
  - simpl.
    assert (Hget : getitem d k' = Ok v')
      by (apply getitem_elem; [done|apply Hsub; left]).
    assert (Hraise : ∀ l', foldl (dictParse_step d) (Raise TypeError) l'
                           = Raise TypeError)
      by (induction l'; simpl; auto).
    destruct Hacc as [->|[s ->]]; [apply Hraise|].
    unfold dictParse_step at 2. simpl. rewrite Hget. simpl.
    apply elem_of_cons in Hin as [[= <- <-]|Hin].
    + destruct v; try discriminate Hv; apply Hraise.
    + apply (IH _ ltac:(intros x Hx; apply Hsub; by right) Hin Hv).
      destruct v'; simpl; eauto.
Qed.

Lemma dictParse_type_error (self : PAPI) (d : list (string * pyval)) k v :
  NoDup d.*1 → (k, v) ∈ d → iterable v = false →
  _dictParse self (PyDict d) = Raise TypeError.
Proof.
  intros Hnd Hin Hv. unfold _dictParse.
  change (foldl _ (Ok "") d.*1) with (foldl (dictParse_step d) (Ok "") d.*1).
  rewrite (step_type_error d d (Ok "") k v); eauto.
Qed.

Lemma undifferentiatied_params_failure `{libs : Collaborators} self
    protocol HTTPMethod protection suffixURI kwargs w e :
  _dictParse self (get kwargs "params" (PyDict [])) = Raise e →
  _undifferentiatied self protocol HTTPMethod protection suffixURI kwargs w
  = (Raise e, w).
Proof. intros Hp. unfold_core. by rewrite Hp. Qed.

(** X13 (parameter encoder): a parameter whose value is a number, a
    boolean or [None] makes the encoder raise a [TypeError], wherever
    it stands in the mapping, and a call of the core routine with such parameters
    raises it before anything is read, printed or sent. *)
Theorem dictParse_non_text_value `{libs : Collaborators} (self : PAPI)
    protocol HTTPMethod protection suffixURI (kwargs : gmap string pyval)
    (d : list (string * pyval)) k v w :
  kwargs !! "params" = Some (PyDict d) →
  NoDup d.*1 → (k, v) ∈ d → is_scalar v = true →
  _dictParse self (PyDict d) = Raise TypeError
  ∧ _undifferentiatied self protocol HTTPMethod protection suffixURI
      kwargs w = (Raise TypeError, w).
Proof.
  intros Hk Hnd Hin Hv.
  assert (Hr : _dictParse self (PyDict d) = Raise TypeError)
    by (apply (dictParse_type_error self d k v Hnd Hin); by destruct v).
  split; [done|]. apply undifferentiatied_params_failure.
  unfold get. by rewrite Hk.
Qed.

(** X14 (parameter encoder): parameters that are text, a number, a
    boolean or [None] instead of a dictionary make the encoder raise an [AttributeError], and a call of the core
    routine with such parameters raises it before anything is read,
    printed or sent. *)
Theorem non_dict_params_rejected `{libs : Collaborators} (self : PAPI)
    protocol HTTPMethod protection suffixURI (kwargs : gmap string pyval)
    params w :
  kwargs !! "params" = Some params →
  is_scalar params = true ∨ is_text params = true →
  _dictParse self params = Raise AttributeError
  ∧ _undifferentiatied self protocol HTTPMethod protection suffixURI
      kwargs w = (Raise AttributeError, w).
Proof.
  intros Hk Hp.
  assert (Hr : _dictParse self params = Raise AttributeError)
    by (destruct params; try done; by destruct Hp).
  split; [done|]. apply undifferentiatied_params_failure.
  unfold get. by rewrite Hk.
Qed.

End Encoder.

(** ** The signer *)

Section SignatureText.

Lemma be_bytes_bytes n x : Forall is_byte (SHA1.be_bytes n x).
Proof.
  unfold SHA1.be_bytes. apply Forall_fmap, Forall_forall. intros i _.
  unfold compose, is_byte. change 255 with (Z.ones 8).
  rewrite Z.land_ones by lia. apply Z.mod_pos_bound. lia.
Qed.

Lemma sha1_digest_bytes msg : Forall is_byte (SHA1.digest msg).
Proof.
  unfold SHA1.digest.
  destruct (SHA1.blocks _ _ _) as [[[[a b] c] d] e].
  rewrite !Forall_app. repeat split; apply be_bytes_bytes.
Qed.

Lemma sextet_char n : 0 ≤ n < 64 → base64_char (Base64.sextet n) = true.
Proof.
  apply (forall_range (fun n => base64_char (Base64.sextet n))).
  vm_compute. reflexivity.
Qed.

Lemma encode_chars (n : nat) (l : list Z) :
  (length l ≤ n)%nat → Forall is_byte l →
  Forall (fun c => base64_char c = true) (Base64.encode l).
Proof.
  revert l. induction n as [|n IH]; intros l Hlen Hl.
  - destruct l; [constructor|simpl in Hlen; lia].
  - destruct l as [|a [|b [|c l]]].
    + constructor.
    + apply Forall_cons in Hl as [Ha _]. unfold is_byte in Ha.
      repeat constructor;
        apply sextet_char; Z.div_mod_to_equations; lia.
    + apply Forall_cons in Hl as [Ha Hl].
      apply Forall_cons in Hl as [Hb _]. unfold is_byte in Ha, Hb.
      repeat constructor;
        apply sextet_char; Z.div_mod_to_equations; lia.
    + apply Forall_cons in Hl as [Ha Hl].
      apply Forall_cons in Hl as [Hb Hl].
      apply Forall_cons in Hl as [Hc Hl]. unfold is_byte in Ha, Hb, Hc.
      change (Base64.encode (a :: b :: c :: l)) with
        (Base64.sextet (a / 4) :: Base64.sextet (a mod 4 * 16 + b / 16)
           :: Base64.sextet (b mod 16 * 4 + c / 64)
           :: Base64.sextet (c mod 64) :: Base64.encode l).
      repeat (apply Forall_cons; split;
              [apply sextet_char; Z.div_mod_to_equations; lia|]).
      apply IH; [simpl in Hlen; lia|done].
Qed.

Lemma all_chars_exclude (l : list ascii) c :
  Forall (fun c => base64_char c = true) l → base64_char c = false →
  existsb (Ascii.eqb c) l = false.
Proof.
  induction 1 as [|x l Hx Hl IH]; [done|]. intros Hc. simpl.
  rewrite IH by done.
  destruct (Ascii.eqb_spec c x) as [->|_]; [congruence|done].
Qed.

(** X15 (signer): a signature that [_getPAPIHash] returns is made of
    characters of the base64 alphabet and the padding character only;
    it has no line feed, no space and no colon, so that the
    Authorization header is one line and its last colon is the one
    before the signature. *)
Theorem signature_characters self HTTPMethod URI HTTPDate patronPassword w
    signature :
  (_getPAPIHash self HTTPMethod URI HTTPDate patronPassword w).1
  = Ok signature →
  forallb base64_char (String.list_ascii_of_string signature) = true
  ∧ has_char "010"%char signature = false
  ∧ has_char " "%char signature = false
  ∧ has_char ":"%char signature = false.
Proof.
  intros Hs.
  destruct (getPAPIHash_inv _ _ _ _ _ _ _ Hs) as (key & p & _ & _ & ->).
  set (digest := HMAC.digest _ _).
  assert (Hall : Forall (fun c => base64_char c = true)
                   (String.list_ascii_of_string (signature_text digest))).
  { unfold signature_text.
    rewrite String.list_ascii_of_string_of_list_ascii.
    destruct (encodestring_20 digest (hmac_digest_length _ _))
      as (_ & -> & _).
    apply (encode_chars 20);
      [unfold digest; by rewrite hmac_digest_length|].
    apply sha1_digest_bytes. }
  split.
  { apply forallb_forall. intros c Hc.
    by apply (proj1 (Forall_forall _ _) Hall), list_elem_of_In. }
  unfold has_char. by rewrite !all_chars_exclude.
Qed.

End SignatureText.

(** ** The catalogue *)

Section Catalogue.
Context `{libs : Collaborators}.

(** The call of the core routine that ends every method: it raises a
    [TypeError] when a keyword of the caller repeats one that the
    method passes or names a parameter of the routine, and else runs
    the routine with the keywords of both. *)
Lemma call_undifferentiatied_eq self protocol HTTPMethod protection
    suffixURI explicit (kwargs : gmap string pyval) w :
  call_undifferentiatied self protocol HTTPMethod protection suffixURI
    explicit kwargs w
  = if existsb (fun k => bool_decide (is_Some (kwargs !! k))) explicit.*1
       || existsb (fun n => bool_decide
                              (is_Some ((list_to_map explicit ∪ kwargs
                                         : gmap string pyval) !! n)))
            core_parameters
    then (Raise TypeError, w)
    else _undifferentiatied self protocol HTTPMethod protection suffixURI
           (list_to_map explicit ∪ kwargs) w.
Proof.
  unfold call_undifferentiatied, merge_keywords, lift, mbind, M_bind.
  destruct (existsb _ explicit.*1); [done|].
  rewrite method_args_positional by done.
  unfold core_parameters. by destruct (existsb _ _).
Qed.

Lemma existsb_present (kwargs : gmap string pyval) (names : list string)
    name :
  name ∈ names → is_Some (kwargs !! name) →
  existsb (fun n => bool_decide (is_Some (kwargs !! n))) names = true.
Proof.
  intros Hin Hsome. apply existsb_exists. exists name.
  split; [by apply list_elem_of_In|by apply bool_decide_eq_true_2].
Qed.

Lemma existsb_absent (kwargs : gmap string pyval) (names : list string)
    name :
  existsb (fun n => bool_decide (is_Some (kwargs !! n))) names = false →
  name ∈ names → kwargs !! name = None.
Proof.
  intros Hex Hin. destruct (kwargs !! name) as [v|] eqn:E; [|done].
  rewrite (existsb_present kwargs names name) in Hex; [done|done|].
  by rewrite E.
Qed.

(** X16 (catalogue, [bibGet]): the scheme, the method, the protection
    level and the path of an operation cannot be given by the caller: a
    keyword of one of these names makes the call raise a [TypeError]
    before anything is read, printed or sent. *)
Theorem bibGet_fixed_by_operation self bibID (kwargs : gmap string pyval)
    w name :
  name ∈ ["protocol"; "HTTPMethod"; "protection"; "suffixURI"] →
  is_Some (kwargs !! name) →
  bibGet self [bibID] kwargs w = (Raise TypeError, w).
Proof.
  intros Hname Hsome. unfold bibGet, lift, mbind, M_bind.
  rewrite method_args_positional by done.
  destruct (existsb _ _); [done|]. cbn beta iota.
  rewrite call_undifferentiatied_eq.
  replace (list_to_map [] ∪ kwargs) with kwargs
    by (simpl; by rewrite (left_id_L ∅ (∪))).
  rewrite (existsb_present kwargs core_parameters name);
    [by rewrite orb_true_r| |done].
  unfold core_parameters. set_solver.
Qed.

(** X17 (catalogue, [holdRequestCancel]): a keyword that names one of
    the parameters of the method, or [params], which the method builds
    from the workstation and the user, makes the call raise a
    [TypeError] before anything is read, printed or sent. *)
Theorem holdRequestCancel_rejects_own_keywords self patronBarcode
    patronPassword requestID workstationID userID
    (kwargs : gmap string pyval) w name :
  name ∈ ["patronBarcode"; "patronPassword"; "requestID"; "workstationID";
          "userID"; "params"] →
  is_Some (kwargs !! name) →
  holdRequestCancel self
    [patronBarcode; patronPassword; requestID; workstationID; userID]
    kwargs w = (Raise TypeError, w).
Proof.
  intros Hname Hsome. unfold holdRequestCancel, lift, mbind, M_bind.
  rewrite method_args_positional by done.
  destruct (existsb _ _) eqn:Eclash; [done|]. cbn beta iota.
  rewrite call_undifferentiatied_eq.
  rewrite (existsb_present kwargs _ name); [done| |done].
  apply elem_of_cons in Hname as [->|Hname];
    [|apply elem_of_cons in Hname as [->|Hname]]; [| set_solver |].
  - by rewrite (existsb_absent _ _ "patronBarcode" Eclash) in Hsome
      by set_solver.
  - repeat (apply elem_of_cons in Hname as [->|Hname];
            [ match goal with
              | |- ?n ∈ _ =>
                  first [ by (rewrite (existsb_absent _ _ n Eclash) in Hsome
                                by set_solver)
                        | set_solver ]
              end |]).
    by apply elem_of_nil in Hname.
Qed.

End Catalogue.

Section CatalogueRequests.
Context `{libs : Collaborators}.

Lemma call_sent self protocol HTTPMethod protection suffixURI explicit
    (kwargs : gmap string pyval) w req :
  wire (call_undifferentiatied self protocol HTTPMethod protection
          suffixURI explicit kwargs w).2 = wire w ++ [req] →
  wire (_undifferentiatied self protocol HTTPMethod protection suffixURI
          (list_to_map explicit ∪ kwargs) w).2 = wire w ++ [req].
Proof.
  rewrite call_undifferentiatied_eq.
  destruct (_ || _); [intros; no_request|done].
Qed.

Lemma union_other (explicit : list (string * pyval))
    (kwargs : gmap string pyval) k :
  k ∉ explicit.*1 →
  (list_to_map explicit ∪ kwargs : gmap string pyval) !! k = kwargs !! k.
Proof.
  intros Hk. apply lookup_union_r. by apply not_elem_of_list_to_map_1.
Qed.

Lemma union_first k v (explicit : list (string * pyval))
    (kwargs : gmap string pyval) :
  (list_to_map ((k, v) :: explicit) ∪ kwargs : gmap string pyval) !! k
  = Some v.
Proof. apply lookup_union_Some_l. simpl. apply lookup_insert_eq. Qed.

Lemma union_second k1 v1 k v (explicit : list (string * pyval))
    (kwargs : gmap string pyval) :
  k1 ≠ k →
  (list_to_map ((k1, v1) :: (k, v) :: explicit) ∪ kwargs
   : gmap string pyval) !! k = Some v.
Proof.
  intros Hk. apply lookup_union_Some_l. simpl.
  rewrite lookup_insert_ne by done. apply lookup_insert_eq.
Qed.

Lemma union_third k1 v1 k2 v2 k v (explicit : list (string * pyval))
    (kwargs : gmap string pyval) :
  k1 ≠ k → k2 ≠ k →
  (list_to_map ((k1, v1) :: (k2, v2) :: (k, v) :: explicit) ∪ kwargs
   : gmap string pyval) !! k = Some v.
Proof.
  intros Hk1 Hk2. apply lookup_union_Some_l. simpl.
  rewrite !lookup_insert_ne by done. apply lookup_insert_eq.
Qed.

Lemma rootURI_agree self protocol protection
    (kwargs1 kwargs2 : gmap string pyval) :
  (∀ k, k ∈ ["version"; "langID"; "appID"; "orgID"] →
        kwargs1 !! k = kwargs2 !! k) →
  rootURI self protocol protection kwargs1
  = rootURI self protocol protection kwargs2.
Proof.
  intros Hk. unfold rootURI, get.
  by rewrite !(Hk "version"), !(Hk "langID"), !(Hk "appID"), !(Hk "orgID")
    by set_solver.
Qed.

Lemma sent_signature self protocol HTTPMethod protection suffixURI kwargs
    w req :
  wire (_undifferentiatied self protocol HTTPMethod protection suffixURI
          kwargs w).2 = wire w ++ [req] →
  ∃ p, password kwargs = PyStr p
       ∧ carries_signature_of self req
           (HTTPMethod +:+ p_url req
              +:+ EmailUtils.formatdate (time_src w (ticks w)) +:+ p).
Proof.
  intros Hreq.
  destruct (undifferentiatied_inv _ _ _ _ _ _ _ _ Hreq)
    as (paramsSuffix & data & prepared & pw & key
        & _ & _ & _ & Hpw & Hkey & Hr & _).
  cbv zeta in Hr. rewrite password_get in Hpw. subst req.
  exists pw. split; [done|]. exists key. split; [done|]. simpl.
  rewrite sent_headers_other by done. apply base_headers_Authorization.
Qed.

Lemma sent_token self protocol HTTPMethod suffixURI kwargs w req :
  wire (_undifferentiatied self protocol HTTPMethod "public" suffixURI
          kwargs w).2 = wire w ++ [req] →
  p_headers req !! "X-PAPI-AccessToken"
  = if truthy (get kwargs "accessToken" (PyStr ""))
    then Some (get kwargs "accessToken" (PyStr "")) else None.
Proof.
  intros Hreq.
  destruct (undifferentiatied_inv _ _ _ _ _ _ _ _ Hreq)
    as (paramsSuffix & data & prepared & pw & key
        & _ & _ & _ & _ & _ & Hr & _).
  cbv zeta in Hr. subst req. simpl.
  destruct (truthy _); simpl;
    [apply lookup_insert_eq|apply base_headers_token].
Qed.

(** X18 (catalogue, [patronBasicDataGet]): the request of a patron
    method is signed with the access secret of the call when the caller
    gives one as a keyword, and else with the patron password that was
    passed; it carries the token header exactly when the caller gives a
    non-empty access token. *)
Theorem patronBasicDataGet_staff_override self patronBarcode patronPassword
    (kwargs : gmap string pyval) w req :
  wire (patronBasicDataGet self [patronBarcode; patronPassword] kwargs
          w).2 = wire w ++ [req] →
  let accessToken := get kwargs "accessToken" (PyStr "") in
  (∃ p, default patronPassword (kwargs !! "accessSecret") = PyStr p
        ∧ carries_signature_of self req
            ("GET" +:+ p_url req
               +:+ EmailUtils.formatdate (time_src w (ticks w)) +:+ p))
  ∧ p_headers req !! "X-PAPI-AccessToken"
    = if truthy accessToken then Some accessToken else None.
Proof.
  unfold patronBasicDataGet, lift, mbind, M_bind.
  rewrite method_args_positional by done.
  destruct (existsb _ _); [intros; no_request|]. cbn beta iota.
  intros Hreq%call_sent.
  split.
  - destruct (sent_signature _ _ _ _ _ _ _ _ Hreq) as (p & Hp & Hsig).
    exists p. split; [|done]. rewrite <- Hp. unfold password.
    rewrite union_other by set_solver. rewrite union_first.
    by destruct (kwargs !! "accessSecret").
  - rewrite (sent_token _ _ _ _ _ _ _ Hreq). unfold get.
    rewrite union_other by set_solver. done.
Qed.

(** X19 (catalogue, [headingSearch]): the URL that a search of headings
    gives to the HTTP library is the root, the path of the search with
    the qualifier, and the query suffix of the parameters of the
    caller. *)
Theorem headingSearch_URL self qualifierName (P : list (string * string))
    (kwargs : gmap string pyval) w req :
  NoDup P.*1 →
  wire (headingSearch self [qualifierName; text_dict P] kwargs w).2
  = wire w ++ [req] →
  ∃ data prepared,
    prepare "GET"
      (rootURI self "http" "public" kwargs
         +:+ ("search/headings/" +:+ py_str qualifierName)
         +:+ query_suffix P) data = Ok prepared
    ∧ p_url req = p_url prepared.
Proof.
  intros Hnd. unfold headingSearch, lift, mbind, M_bind.
  rewrite method_args_positional by done.
  destruct (existsb _ _); [intros; no_request|]. cbn beta iota.
  intros Hreq%call_sent.
  destruct (undifferentiatied_inv _ _ _ _ _ _ _ _ Hreq)
    as (paramsSuffix & data & prepared & pw & key
        & Hp & _ & Hprep & _ & _ & Hr & _).
  cbv zeta in Hr. unfold get in Hp. rewrite union_first in Hp.
  change (_dictParse self (text_dict P) = Ok paramsSuffix) in Hp.
  rewrite dictParse_text_dict in Hp by done.
  injection Hp as <-.
  rewrite (rootURI_agree _ _ _ _ kwargs) in Hprep
    by (intros; apply union_other; set_solver).
  exists data, prepared. split; [done|by subst req].
Qed.

(** X26 (catalogue, [bibSearch]): the URL that a search of bibliographic
    records gives to the HTTP library is the root, the path of the
    keyword search with the qualifier, and the query suffix of the
    parameters of the caller. *)
Theorem bibSearch_URL self qualifierName (P : list (string * string))
    (kwargs : gmap string pyval) w req :
  NoDup P.*1 →
  wire (bibSearch self [qualifierName; text_dict P] kwargs w).2
  = wire w ++ [req] →
  ∃ data prepared,
    prepare "GET"
      (rootURI self "http" "public" kwargs
         +:+ ("search/bibs/keyword/" +:+ py_str qualifierName)
         +:+ query_suffix P) data = Ok prepared
    ∧ p_url req = p_url prepared.
Proof.
  intros Hnd. unfold bibSearch, lift, mbind, M_bind.
  rewrite method_args_positional by done.
  destruct (existsb _ _); [intros; no_request|]. cbn beta iota.
  intros Hreq%call_sent.
  destruct (undifferentiatied_inv _ _ _ _ _ _ _ _ Hreq)
    as (paramsSuffix & data & prepared & pw & key
        & Hp & _ & Hprep & _ & _ & Hr & _).
  cbv zeta in Hr. unfold get in Hp. rewrite union_first in Hp.
  change (_dictParse self (text_dict P) = Ok paramsSuffix) in Hp.
  rewrite dictParse_text_dict in Hp by done.
  injection Hp as <-.
  rewrite (rootURI_agree _ _ _ _ kwargs) in Hprep
    by (intros; apply union_other; set_solver).
  exists data, prepared. split; [done|by subst req].
Qed.

(** X20 (catalogue, [holdRequestCancel] and [patronReadingHistoryGet]):
    the values that these methods put into the query, workstation and
    user, page and rows per page, must be text: with a number, a
    boolean or [None] for one of them the call raises a [TypeError]
    before anything is read, printed or sent. *)
Theorem query_arguments_must_be_text self patronBarcode patronPassword
    requestID a b (kwargs : gmap string pyval) w :
  is_scalar a = true ∨ is_scalar b = true →
  holdRequestCancel self [patronBarcode; patronPassword; requestID; a; b]
    kwargs w = (Raise TypeError, w)
  ∧ patronReadingHistoryGet self [patronBarcode; patronPassword; a; b]
      kwargs w = (Raise TypeError, w).
Proof.
  intros Hab. split.
  - unfold holdRequestCancel, lift, mbind, M_bind.
    rewrite method_args_positional by done.
    destruct (existsb _ _); [done|]. cbn beta iota.
    rewrite call_undifferentiatied_eq. destruct (_ || _); [done|].
    apply undifferentiatied_params_failure. unfold get.
    rewrite union_second by done. cbn [from_option id].
    destruct Hab as [Ha|Hb].
    + apply (dictParse_type_error self _ "wsid" a);
        [|set_solver|by destruct a].
      apply NoDup_cons; split;
        [by rewrite list_elem_of_singleton|apply NoDup_singleton].
    + apply (dictParse_type_error self _ "userid" b);
        [|set_solver|by destruct b].
      apply NoDup_cons; split;
        [by rewrite list_elem_of_singleton|apply NoDup_singleton].
  - unfold patronReadingHistoryGet, lift, mbind, M_bind.
    rewrite method_args_positional by done.
    destruct (existsb _ _); [done|]. cbn beta iota.
    rewrite call_undifferentiatied_eq. destruct (_ || _); [done|].
    apply undifferentiatied_params_failure. unfold get.
    rewrite union_second by done. cbn [from_option id].
    destruct Hab as [Ha|Hb].
    + apply (dictParse_type_error self _ "page" a);
        [|set_solver|by destruct a].
      apply NoDup_cons; split;
        [by rewrite list_elem_of_singleton|apply NoDup_singleton].
    + apply (dictParse_type_error self _ "rowsperpage" b);
        [|set_solver|by destruct b].
      apply NoDup_cons; split;
        [by rewrite list_elem_of_singleton|apply NoDup_singleton].
Qed.

End CatalogueRequests.

Section CatalogueDates.
Context `{libs : Collaborators}.

Lemma bind_args_last_keyword names n args (kwargs : gmap string pyval) :
  length args = length names →
  bind_args (names ++ [n]) args kwargs
  = if existsb (fun x => bool_decide (is_Some (kwargs !! x))) names
    then Raise TypeError
    else match kwargs !! n with
         | Some v => Ok (args ++ [v], delete n kwargs)
         | None => Raise TypeError
         end.
Proof.
  revert args. induction names as [|x names IH]; intros [|a args] Hlen;
    simpl in *; try done.
  destruct (kwargs !! x) as [v|] eqn:Ex.
  - by rewrite bool_decide_eq_true_2.
  - rewrite bool_decide_eq_false_2 by (by intros [? ?]). simpl.
    rewrite IH by lia. destruct (existsb _ names); [done|].
    by destruct (kwargs !! n).
Qed.

Lemma method_args_last_keyword names n args (kwargs : gmap string pyval) :
  length args = length names →
  method_args (names ++ [n]) args kwargs
  = if existsb (fun x => bool_decide (is_Some (kwargs !! x)))
         ("self" :: names)
    then Raise TypeError
    else match kwargs !! n with
         | Some v => Ok (args ++ [v], delete n kwargs)
         | None => Raise TypeError
         end.
Proof.
  intros Hlen. unfold method_args.
  rewrite (bind_args_last_keyword ("self" :: names) n (self_value :: args))
    by (simpl; lia).
  destruct (existsb _ _); [done|]. by destruct (kwargs !! n).
Qed.

(** X21 (catalogue, [holdRequestSuspendAllForPatron]): the method
    passes no activation date to [holdRequestSuspend], which requires
    one: a call without the keyword [activationDate] raises a
    [TypeError] before anything is read, printed or sent. *)
Theorem suspend_all_needs_activationDate self patronBarcode patronPassword
    activity userID (kwargs : gmap string pyval) w :
  kwargs !! "activationDate" = None →
  holdRequestSuspendAllForPatron self
    [patronBarcode; patronPassword; activity; userID] kwargs w
  = (Raise TypeError, w).
Proof.
  intros Hdate. unfold holdRequestSuspendAllForPatron, lift, mbind, M_bind.
  rewrite method_args_positional by done.
  destruct (existsb _ _); [done|]. cbn beta iota.
  unfold holdRequestSuspend, lift, mbind, M_bind.
  rewrite (method_args_last_keyword
             ["patronBarcode"; "patronPassword"; "requestID"; "activity";
              "userID"] "activationDate") by done.
  destruct (existsb _ _); [done|]. by rewrite Hdate.
Qed.

(** X22 (catalogue, [holdRequestSuspendAllForPatron]): with the keyword
    [activationDate], suspending all hold requests of a patron does
    what suspending the hold request ['0'] of that patron with this
    activation date does. *)
Theorem suspend_all_is_suspend_of_0 self patronBarcode patronPassword
    activity userID (kwargs : gmap string pyval) activationDate w :
  kwargs !! "activationDate" = Some activationDate →
  holdRequestSuspendAllForPatron self
    [patronBarcode; patronPassword; activity; userID] kwargs w
  = holdRequestSuspend self
      [patronBarcode; patronPassword; PyStr "0"; activity; userID;
       activationDate]
      (delete "activationDate" kwargs) w.
Proof.
  intros Hdate.
  unfold holdRequestSuspendAllForPatron, lift, mbind, M_bind.
  rewrite method_args_positional by done.
  unfold holdRequestSuspend, lift, mbind, M_bind.
  rewrite (method_args_positional
             ["patronBarcode"; "patronPassword"; "requestID"; "activity";
              "userID"; "activationDate"]) by done.
  cbn [existsb].
  rewrite lookup_delete_eq, !lookup_delete_ne by done.
  rewrite (bool_decide_eq_false_2 (is_Some None)) by (by intros [? ?]).
  destruct (bool_decide (is_Some (kwargs !! "self"))) eqn:E1,
    (bool_decide (is_Some (kwargs !! "patronBarcode"))) eqn:E2,
    (bool_decide (is_Some (kwargs !! "patronPassword"))) eqn:E3,
    (bool_decide (is_Some (kwargs !! "requestID"))) eqn:E4,
    (bool_decide (is_Some (kwargs !! "activity"))) eqn:E5,
    (bool_decide (is_Some (kwargs !! "userID"))) eqn:E6;
    cbn [orb]; cbn beta iota; try done;
    rewrite (method_args_last_keyword
               ["patronBarcode"; "patronPassword"; "requestID"; "activity";
                "userID"] "activationDate") by done;
    cbn [existsb]; rewrite ?E1, ?E2, ?E3, ?E4, ?E5, ?E6; cbn [orb];
    rewrite ?Hdate; done.
Qed.

Lemma call_sent_eq self protocol HTTPMethod protection suffixURI explicit
    (kwargs : gmap string pyval) w req :
  wire (call_undifferentiatied self protocol HTTPMethod protection
          suffixURI explicit kwargs w).2 = wire w ++ [req] →
  call_undifferentiatied self protocol HTTPMethod protection suffixURI
    explicit kwargs w
  = _undifferentiatied self protocol HTTPMethod protection suffixURI
      (list_to_map explicit ∪ kwargs) w.
Proof.
  rewrite call_undifferentiatied_eq.
  destruct (_ || _); [intros; no_request|done].
Qed.

(** X23 (catalogue, [holdRequestCreate]): a call that sends its request
    has read the clock twice: the first reading, in seconds and
    followed by three zeros, is the activation date of the request when
    the caller gives none, and the second is the date of the Date
    header. *)
Theorem holdRequestCreate_dates self patronID bibID pickupOrgID
    workstationID userID requestingOrgID (kwargs : gmap string pyval) w
    req :
  wire (holdRequestCreate self
          [patronID; bibID; pickupOrgID; workstationID; userID;
           requestingOrgID] kwargs w).2 = wire w ++ [req] →
  ticks (holdRequestCreate self
           [patronID; bibID; pickupOrgID; workstationID; userID;
            requestingOrgID] kwargs w).2 = S (S (ticks w))
  ∧ p_headers req !! "Date"
    = Some (PyStr (EmailUtils.formatdate (time_src w (S (ticks w)))))
  ∧ ∃ d data,
      json_dumps (PyDict d) = Ok data
      ∧ p_headers req !! "Content-Length"
        = Some (PyInt (Z.of_nat (String.length data)))
      ∧ getitem d "ActivationDate"
        = Ok (PyStr ("/Date("
                       +:+ py_str (get kwargs "activationDate"
                                     (PyStr (dec (time_src w (ticks w)))))
                       +:+ "000-0000)/")).
Proof.
  unfold holdRequestCreate, lift, mbind, M_bind.
  rewrite method_args_positional by done.
  destruct (existsb _ _); [intros; no_request|]. cbn beta iota.
  unfold time at 1 2. cbn beta iota.
  set (w1 := {| time_src := time_src w; ticks := S (ticks w);
                stdout := stdout w; wire := wire w |}).
  intros Hreq. change (wire w) with (wire w1) in Hreq.
  rewrite (call_sent_eq _ _ _ _ _ _ _ _ _ Hreq).
  apply call_sent in Hreq.
  destruct (undifferentiatied_inv _ _ _ _ _ _ _ _ Hreq)
    as (paramsSuffix & data & prepared & pw & key
        & _ & Hd & _ & _ & _ & Hr & Hrun).
  cbv zeta in Hr, Hrun. rewrite Hrun.
  split; [done|]. split; [exact (sent_date _ _ _ _ _ _ _ _ Hreq)|].
  unfold get in Hd. rewrite union_first in Hd. cbn [from_option id] in Hd.
  eexists _, data. split; [exact Hd|]. split; [|reflexivity].
  subst req. simpl. rewrite sent_headers_other by done.
  unfold base_headers. simpl.
  do 3 (rewrite lookup_insert_ne by done). by rewrite lookup_insert_eq.
Qed.

(** X24 (catalogue, [patronAccountPay]): the request of this protected
    method goes to an [https] URL in which the access token is the
    first segment of the path, is signed with the access secret that
    was passed, and never has the token header. *)
Theorem patronAccountPay_request self accessToken accessSecret
    patronBarcode chargeTxnID txnAmount paymentMethodID workstationID
    userID (kwargs : gmap string pyval) w req :
  wire (patronAccountPay self
          [accessToken; accessSecret; patronBarcode; chargeTxnID;
           txnAmount; paymentMethodID; workstationID; userID] kwargs
          w).2 = wire w ++ [req] →
  (∃ paramsSuffix data prepared,
     _dictParse self
       (PyDict [("wsid", workstationID); ("userid", userID)])
     = Ok paramsSuffix
     ∧ prepare "PUT"
         (rootURI self "https" "protected" kwargs
            +:+ (py_str accessToken +:+ "/patron/"
                   +:+ py_str patronBarcode +:+ "/account/"
                   +:+ py_str chargeTxnID +:+ "/pay")
            +:+ paramsSuffix) data = Ok prepared
     ∧ p_url req = p_url prepared)
  ∧ (∃ p, accessSecret = PyStr p
          ∧ carries_signature_of self req
              ("PUT" +:+ p_url req
                 +:+ EmailUtils.formatdate (time_src w (ticks w)) +:+ p))
  ∧ p_headers req !! "X-PAPI-AccessToken" = None.
Proof.
  unfold patronAccountPay, lift, mbind, M_bind.
  rewrite method_args_positional by done.
  destruct (existsb _ _); [intros; no_request|]. cbn beta iota.
  intros Hreq%call_sent.
  split; [|split].
  - destruct (undifferentiatied_inv _ _ _ _ _ _ _ _ Hreq)
      as (paramsSuffix & data & prepared & pw & key
          & Hp & _ & Hprep & _ & _ & Hr & _).
    cbv zeta in Hr. unfold get in Hp.
    rewrite union_third in Hp by done. cbn [from_option id] in Hp.
    rewrite (rootURI_agree _ _ _ _ kwargs) in Hprep
      by (intros; apply union_other; set_solver).
    exists paramsSuffix, data, prepared.
    split; [done|split; [done|by subst req]].
  - destruct (sent_signature _ _ _ _ _ _ _ _ Hreq) as (p & Hp & Hsig).
    exists p. split; [|done]. rewrite <- Hp. unfold password.
    by rewrite union_first.
  - destruct (undifferentiatied_inv _ _ _ _ _ _ _ _ Hreq)
      as (paramsSuffix & data & prepared & pw & key
          & _ & _ & _ & _ & _ & Hr & _).
    cbv zeta in Hr. subst req. simpl.
    rewrite andb_false_r. apply base_headers_token.
Qed.


End CatalogueDates.

(** ** The properties of this part on concrete calls *)

Lemma core_early_failure_witness :
  _undifferentiatied (libs := Reference.libs) Reference.client0
    "http" "GET" "public" "bib/353063"
    ({["params" := PyNone]} : gmap string pyval) Reference.world0
  = (Raise AttributeError, Reference.world0).
Proof.
  apply (core_early_failure (libs := Reference.libs) Reference.client0
           "http" "GET" "public" "bib/353063"
           ({["params" := PyNone]} : gmap string pyval) Reference.world0
           AttributeError).
  left. vm_compute. reflexivity.
Defined.

Lemma core_returns_transport_outcome_witness :
  (_undifferentiatied (libs := Reference.libs) Reference.client0
     "http" "GET" "public" "bib/a b" ∅ Reference.world0).1
  = transport (Collaborators := Reference.libs) request_bib_a_b.
Proof.
  apply (core_returns_transport_outcome (libs := Reference.libs)
           Reference.client0 "http" "GET" "public" "bib/a b" ∅
           Reference.world0 request_bib_a_b).
  vm_compute. reflexivity.
Defined.

Lemma core_headers_witness :
  p_headers request_bib_a_b !! "Content-Type"
  = Some (PyStr "application/json")
  ∧ p_headers request_bib_a_b !! "Accept" = Some (PyStr "application/json")
  ∧ (∃ data,
       json_dumps (Collaborators := Reference.libs)
         (get ∅ "data" (PyDict [])) = Ok data
       ∧ p_headers request_bib_a_b !! "Content-Length"
         = Some (PyInt (Z.of_nat (String.length data))))
  ∧ ∀ name, is_Some (p_headers request_bib_a_b !! name) →
            name ∈ header_names.
Proof.
  apply (core_headers (libs := Reference.libs) Reference.client0
           "http" "GET" "public" "bib/a b" ∅ Reference.world0
           request_bib_a_b).
  vm_compute. reflexivity.
Defined.

Lemma core_ignores_other_keywords_witness :
  _undifferentiatied (libs := Reference.libs) Reference.client0
    "http" "GET" "public" "bib/353063" ∅ Reference.world0
  = _undifferentiatied (libs := Reference.libs) Reference.client0
      "http" "GET" "public" "bib/353063"
      ({["timeout" := PyInt 5]} : gmap string pyval) Reference.world0.
Proof.
  apply (core_ignores_other_keywords (libs := Reference.libs)
           Reference.client0 "http" "GET" "public" "bib/353063" ∅
           ({["timeout" := PyInt 5]} : gmap string pyval) Reference.world0).
  intros k Hk. unfold core_keywords in Hk.
  repeat (apply elem_of_cons in Hk as [->|Hk]; [vm_compute; reflexivity|]).
  by apply elem_of_nil in Hk.
Defined.


Lemma core_non_text_key_witness :
  let self := {| _accessKey := PyNone; _accessKeyID := PyStr "apiuser";
                 _hostname := PyStr "papi.example.org" |} in
  (_undifferentiatied (libs := Reference.libs) self
     "http" "GET" "public" "patron/B1/basicdata"
     ({["patronPassword" := PyStr "P1"]} : gmap string pyval)
     Reference.world0).1 = Raise TypeError
  ∧ advanced Reference.world0
      (_undifferentiatied (libs := Reference.libs) self
         "http" "GET" "public" "patron/B1/basicdata"
         ({["patronPassword" := PyStr "P1"]} : gmap string pyval)
         Reference.world0).2 1
      ["GET"
         +:+ "http://papi.example.org/PAPIService/REST/public/v1/1033/100/1/patron/B1/basicdata"
         +:+ EmailUtils.formatdate
               (time_src Reference.world0 (ticks Reference.world0))
         +:+ "P1"] [].
Proof.
  apply (core_non_text_key (libs := Reference.libs)
           {| _accessKey := PyNone; _accessKeyID := PyStr "apiuser";
              _hostname := PyStr "papi.example.org" |}
           "http" "GET" "public" "patron/B1/basicdata"
           ({["patronPassword" := PyStr "P1"]} : gmap string pyval)
           Reference.world0 "" "{}"
           {| p_method := "GET";
              p_url := "http://papi.example.org/PAPIService/REST/public/v1/1033/100/1/patron/B1/basicdata";
              p_headers := ∅; p_body := "{}" |} "P1");
    vm_compute; reflexivity.
Defined.

Lemma two_requests_two_readings_witness :
  let run :=
    (_ ← _undifferentiatied (libs := Reference.libs) Reference.client0
           "http" "GET" "public" "bib/a b" ∅;
     _undifferentiatied (libs := Reference.libs) Reference.client0
       "http" "GET" "public" "bib/353063" ∅) Reference.world0 in
  p_headers (request_at 0 run) !! "Date"
  = Some (PyStr (EmailUtils.formatdate
                   (time_src Reference.world0 (ticks Reference.world0))))
  ∧ p_headers (request_at 1 run) !! "Date"
    = Some (PyStr (EmailUtils.formatdate
                     (time_src Reference.world0
                        (S (ticks Reference.world0))))).
Proof.
  intros run.
  apply (two_requests_two_readings (libs := Reference.libs) Reference.client0
           "http" "GET" "public" "bib/a b" ∅
           "http" "GET" "public" "bib/353063" ∅ Reference.world0
           (request_at 0 run) (request_at 1 run)).
  vm_compute. reflexivity.
Defined.

Lemma dictParse_no_space_witness :
  ∃ suffix,
    _dictParse Reference.client0 (text_dict [("start point", "civil war")])
    = Ok suffix
    ∧ no_space suffix = true.
Proof.
  apply (dictParse_no_space Reference.client0 [("start point", "civil war")]).
  refine (bool_decide_unpack _ _). vm_compute. exact I.
Defined.

Lemma dictParse_verbatim_witness :
  _dictParse Reference.client0
    (text_dict [("q", "PATNL=Bar"); ("sort", "PATNB")])
  = Ok ("?" +:+ join "&" ((fun kv => kv.1 +:+ "=" +:+ kv.2)
                            <$> [("q", "PATNL=Bar"); ("sort", "PATNB")])).
Proof.
  apply (dictParse_verbatim Reference.client0
           [("q", "PATNL=Bar"); ("sort", "PATNB")]).
  - refine (bool_decide_unpack _ _). vm_compute. exact I.
  - repeat constructor.
Defined.

Lemma dictParse_separators_pass_witness :
  _dictParse Reference.client0
    (text_dict [("q", "war" +:+ "&" +:+ "page" +:+ "=" +:+ "2")])
  = _dictParse Reference.client0 (text_dict [("q", "war"); ("page", "2")]).
Proof.
  apply (dictParse_separators_pass Reference.client0 "q" "war" "page" "2").
  discriminate.
Defined.

Lemma dictParse_non_text_value_witness :
  _dictParse Reference.client0
    (PyDict [("page", PyStr "1"); ("rowsperpage", PyInt 10)])
  = Raise TypeError
  ∧ _undifferentiatied (libs := Reference.libs) Reference.client0
      "http" "GET" "public" "patron/B1/readinghistory"
      ({["params" := PyDict [("page", PyStr "1"); ("rowsperpage", PyInt 10)]]}
       : gmap string pyval) Reference.world0
    = (Raise TypeError, Reference.world0).
Proof.
  apply (dictParse_non_text_value (libs := Reference.libs) Reference.client0
           "http" "GET" "public" "patron/B1/readinghistory"
           ({["params" := PyDict [("page", PyStr "1");
                                  ("rowsperpage", PyInt 10)]]}
            : gmap string pyval)
           [("page", PyStr "1"); ("rowsperpage", PyInt 10)]
           "rowsperpage" (PyInt 10) Reference.world0).
  - vm_compute. reflexivity.
  - refine (bool_decide_unpack _ _). vm_compute. exact I.
  - right. left.
  - reflexivity.
Defined.

Lemma non_dict_params_rejected_witness :
  _dictParse Reference.client0 (PyStr "q=war") = Raise AttributeError
  ∧ _undifferentiatied (libs := Reference.libs) Reference.client0
      "http" "GET" "public" "search/headings/su"
      ({["params" := PyStr "q=war"]} : gmap string pyval) Reference.world0
    = (Raise AttributeError, Reference.world0).
Proof.
  apply (non_dict_params_rejected (libs := Reference.libs) Reference.client0
           "http" "GET" "public" "search/headings/su"
           ({["params" := PyStr "q=war"]} : gmap string pyval)
           (PyStr "q=war") Reference.world0).
  - vm_compute. reflexivity.
  - right. reflexivity.
Defined.

Lemma signature_characters_witness :
  forallb base64_char
    (String.list_ascii_of_string "fWABlMi8c+obMUVvh9XgKY1HNtI=") = true
  ∧ has_char "010"%char "fWABlMi8c+obMUVvh9XgKY1HNtI=" = false
  ∧ has_char " "%char "fWABlMi8c+obMUVvh9XgKY1HNtI=" = false
  ∧ has_char ":"%char "fWABlMi8c+obMUVvh9XgKY1HNtI=" = false.
Proof.
  apply (signature_characters Reference.client0 "GET"
           "http://papi.example.org/PAPIService/REST/public/v1/1033/100/1/bib/353063"
           "Sat, 01 Apr 2017 14:46:40 GMT" (PyStr "") Reference.world0).
  vm_compute. reflexivity.
Defined.

Lemma bibGet_fixed_by_operation_witness :
  bibGet (libs := Reference.libs) Reference.client0 [PyStr "353063"]
    ({["protocol" := PyStr "https"]} : gmap string pyval) Reference.world0
  = (Raise TypeError, Reference.world0).
Proof.
  apply (bibGet_fixed_by_operation (libs := Reference.libs) Reference.client0
           (PyStr "353063")
           ({["protocol" := PyStr "https"]} : gmap string pyval)
           Reference.world0 "protocol").
  - left.
  - vm_compute. eauto.
Defined.

Lemma holdRequestCancel_rejects_own_keywords_witness :
  holdRequestCancel (libs := Reference.libs) Reference.client0
    [PyStr "B1"; PyStr "P1"; PyStr "311260"; PyStr "1"; PyStr "2"]
    ({["params" := PyDict [("wsid", PyStr "3")]]} : gmap string pyval)
    Reference.world0
  = (Raise TypeError, Reference.world0).
Proof.
  apply (holdRequestCancel_rejects_own_keywords (libs := Reference.libs)
           Reference.client0 (PyStr "B1") (PyStr "P1") (PyStr "311260")
           (PyStr "1") (PyStr "2")
           ({["params" := PyDict [("wsid", PyStr "3")]]}
            : gmap string pyval)
           Reference.world0 "params").
  - do 5 right. left.
  - vm_compute. eauto.
Defined.

Lemma patronBasicDataGet_staff_override_witness :
  let kwargs : gmap string pyval :=
    {["accessToken" := PyStr "tok"; "accessSecret" := PyStr "secret"]} in
  let req :=
    last_request
      (patronBasicDataGet (libs := Reference.libs) Reference.client0
         [PyStr "B1"; PyStr "P1"] kwargs Reference.world0) in
  (∃ p, default (PyStr "P1") (kwargs !! "accessSecret") = PyStr p
        ∧ carries_signature_of Reference.client0 req
            ("GET" +:+ p_url req
               +:+ EmailUtils.formatdate
                     (time_src Reference.world0 (ticks Reference.world0))
               +:+ p))
  ∧ p_headers req !! "X-PAPI-AccessToken"
    = if truthy (get kwargs "accessToken" (PyStr ""))
      then Some (get kwargs "accessToken" (PyStr "")) else None.
Proof.
  intros kwargs req.
  apply (patronBasicDataGet_staff_override (libs := Reference.libs)
           Reference.client0 (PyStr "B1") (PyStr "P1") kwargs
           Reference.world0 req).
  vm_compute. reflexivity.
Defined.

Lemma headingSearch_URL_witness :
  let req :=
    last_request
      (headingSearch (libs := Reference.libs) Reference.client0
         [PyStr "su"; text_dict [("startpoint", "civil war")]] ∅
         Reference.world0) in
  ∃ data prepared,
    prepare (Collaborators := Reference.libs) "GET"
      (rootURI Reference.client0 "http" "public" ∅
         +:+ ("search/headings/" +:+ py_str (PyStr "su"))
         +:+ query_suffix [("startpoint", "civil war")]) data = Ok prepared
    ∧ p_url req = p_url prepared.
Proof.
  intros req.
  apply (headingSearch_URL (libs := Reference.libs) Reference.client0
           (PyStr "su") [("startpoint", "civil war")] ∅ Reference.world0
           req).
  - refine (bool_decide_unpack _ _). vm_compute. exact I.
  - vm_compute. reflexivity.
Defined.

Lemma bibSearch_URL_witness :
  let req :=
    last_request
      (bibSearch (libs := Reference.libs) Reference.client0
         [PyStr "bc"; text_dict [("q", "32491015192050")]] ∅
         Reference.world0) in
  ∃ data prepared,
    prepare (Collaborators := Reference.libs) "GET"
      (rootURI Reference.client0 "http" "public" ∅
         +:+ ("search/bibs/keyword/" +:+ py_str (PyStr "bc"))
         +:+ query_suffix [("q", "32491015192050")]) data = Ok prepared
    ∧ p_url req = p_url prepared.
Proof.
  intros req.
  apply (bibSearch_URL (libs := Reference.libs) Reference.client0
           (PyStr "bc") [("q", "32491015192050")] ∅ Reference.world0 req).
  - refine (bool_decide_unpack _ _). vm_compute. exact I.
  - vm_compute. reflexivity.
Defined.

Lemma query_arguments_must_be_text_witness :
  holdRequestCancel (libs := Reference.libs) Reference.client0
    [PyStr "B1"; PyStr "P1"; PyStr "311260"; PyInt 1; PyStr "2"] ∅
    Reference.world0 = (Raise TypeError, Reference.world0)
  ∧ patronReadingHistoryGet (libs := Reference.libs) Reference.client0
      [PyStr "B1"; PyStr "P1"; PyInt 1; PyStr "2"] ∅ Reference.world0
    = (Raise TypeError, Reference.world0).
Proof.
  apply (query_arguments_must_be_text (libs := Reference.libs)
           Reference.client0 (PyStr "B1") (PyStr "P1") (PyStr "311260")
           (PyInt 1) (PyStr "2") ∅ Reference.world0).
  left. reflexivity.
Defined.

Lemma suspend_all_needs_activationDate_witness :
  holdRequestSuspendAllForPatron (libs := Reference.libs) Reference.client0
    [PyStr "B1"; PyStr "P1"; PyStr "1"; PyStr "2"] ∅ Reference.world0
  = (Raise TypeError, Reference.world0).
Proof.
  apply (suspend_all_needs_activationDate (libs := Reference.libs)
           Reference.client0 (PyStr "B1") (PyStr "P1") (PyStr "1")
           (PyStr "2") ∅ Reference.world0).
  reflexivity.
Defined.

Lemma suspend_all_is_suspend_of_0_witness :
  let kwargs : gmap string pyval :=
    {["activationDate" := PyStr "1491058000"]} in
  holdRequestSuspendAllForPatron (libs := Reference.libs) Reference.client0
    [PyStr "B1"; PyStr "P1"; PyStr "1"; PyStr "2"] kwargs Reference.world0
  = holdRequestSuspend (libs := Reference.libs) Reference.client0
      [PyStr "B1"; PyStr "P1"; PyStr "0"; PyStr "1"; PyStr "2";
       PyStr "1491058000"]
      (delete "activationDate" kwargs) Reference.world0.
Proof.
  intros kwargs.
  apply (suspend_all_is_suspend_of_0 (libs := Reference.libs)
           Reference.client0 (PyStr "B1") (PyStr "P1") (PyStr "1")
           (PyStr "2") kwargs (PyStr "1491058000") Reference.world0).
  vm_compute. reflexivity.
Defined.

Lemma holdRequestCreate_dates_witness :
  let run :=
    holdRequestCreate (libs := Reference.libs) Reference.client0
      [PyStr "121175"; PyStr "353063"; PyStr "3"; PyStr "1"; PyStr "2";
       PyStr "3"] ∅ Reference.world0 in
  ticks run.2 = S (S (ticks Reference.world0))
  ∧ p_headers (last_request run) !! "Date"
    = Some (PyStr (EmailUtils.formatdate
                     (time_src Reference.world0
                        (S (ticks Reference.world0)))))
  ∧ ∃ d data,
      json_dumps (Collaborators := Reference.libs) (PyDict d) = Ok data
      ∧ p_headers (last_request run) !! "Content-Length"
        = Some (PyInt (Z.of_nat (String.length data)))
      ∧ getitem d "ActivationDate"
        = Ok (PyStr ("/Date("
                       +:+ py_str (get ∅ "activationDate"
                                     (PyStr (dec (time_src Reference.world0
                                                    (ticks Reference.world0)))))
                       +:+ "000-0000)/")).
Proof.
  intros run.
  apply (holdRequestCreate_dates (libs := Reference.libs) Reference.client0
           (PyStr "121175") (PyStr "353063") (PyStr "3") (PyStr "1")
           (PyStr "2") (PyStr "3") ∅ Reference.world0 (last_request run)).
  vm_compute. reflexivity.
Defined.

Lemma patronAccountPay_request_witness :
  let req :=
    last_request
      (patronAccountPay (libs := Reference.libs) Reference.client0
         [PyStr "tok"; PyStr "secret"; PyStr "B1"; PyStr "1170113";
          PyStr "0"; PyStr "11"; PyStr "1"; PyStr "2"] ∅
         Reference.world0) in
  (∃ paramsSuffix data prepared,
     _dictParse Reference.client0
       (PyDict [("wsid", PyStr "1"); ("userid", PyStr "2")])
     = Ok paramsSuffix
     ∧ prepare (Collaborators := Reference.libs) "PUT"
         (rootURI Reference.client0 "https" "protected" ∅
            +:+ (py_str (PyStr "tok") +:+ "/patron/"
                   +:+ py_str (PyStr "B1") +:+ "/account/"
                   +:+ py_str (PyStr "1170113") +:+ "/pay")
            +:+ paramsSuffix) data = Ok prepared
     ∧ p_url req = p_url prepared)
  ∧ (∃ p, PyStr "secret" = PyStr p
          ∧ carries_signature_of Reference.client0 req
              ("PUT" +:+ p_url req
                 +:+ EmailUtils.formatdate
                       (time_src Reference.world0 (ticks Reference.world0))
                 +:+ p))
  ∧ p_headers req !! "X-PAPI-AccessToken" = None.
Proof.
  intros req.
  apply (patronAccountPay_request (libs := Reference.libs) Reference.client0
           (PyStr "tok") (PyStr "secret") (PyStr "B1") (PyStr "1170113")
           (PyStr "0") (PyStr "11") (PyStr "1") (PyStr "2") ∅
           Reference.world0 req).
  vm_compute. reflexivity.
Defined.

